(** * Argus favicon generator: a shallow embedding of
      [argus_core/execution/generate_favicons.py]

    The script resizes one source image into a fixed catalogue of icon
    files by calling the command-line tool [sips], then builds
    [favicon.ico] with a copy fallback.  It is embedded here as a program
    in a small state-and-exception monad over a world made of a
    filesystem, the console and the list of commands handed to
    [subprocess.run].  The external programs ([sips], [cp]) are a
    parameter of the development; what is assumed about them is collected
    in explicit contracts. *)

From Stdlib Require Import ZArith List String Ascii Bool Lia.
From stdpp Require Import base option list strings pretty gmap fin_maps.

Open Scope string_scope.
Open Scope list_scope.
Open Scope Z_scope.

(** ** The world the script runs in *)

Inductive encoding := PNG | JPEG | ICO.

(** What the model keeps of a file: its encoded format and pixel size.
    Two files with equal records stand for byte-identical files. *)
Record image := Image {
  img_encoding : encoding;
  img_width : Z;
  img_height : Z
}.

Inductive node :=
| Dir
| File (content : image).

Record world := World {
  fs : gmap string node;          (* path -> directory or file *)
  console : list string;          (* lines written by [print] *)
  calls : list (list string)      (* argument vectors given to [subprocess.run] *)
}.

(** Python exceptions the script can meet. *)
Inductive exn :=
| CalledProcessError (returncode : Z) (cmd : list string)
| FileNotFoundError (filename : string)
| FileExistsError (filename : string)
| PermissionError (filename : string).

(** Python values a call of the script can return. *)
Inductive value := PyNone.

Inductive outcome (A : Type) :=
| Returned (a : A)
| Raised (e : exn).
Arguments Returned {A} a.
Arguments Raised {A} e.

(** ** A state-and-exception monad *)

Definition M (A : Type) : Type := world -> outcome A * world.

Global Instance M_ret : MRet M := fun A a w => (Returned a, w).

Global Instance M_bind : MBind M := fun A B k m w =>
  match m w with
  | (Returned a, w') => k a w'
  | (Raised e, w') => (Raised e, w')
  end.

Definition raise {A} (e : exn) : M A := fun w => (Raised e, w).

(** [try: body except <selected exceptions>: handler].  [handler e] is
    [None] for an exception the [except] clause does not name. *)
Definition try_except {A} (body : M A) (handler : exn -> option (M A)) : M A :=
  fun w =>
    match body w with
    | (Returned a, w') => (Returned a, w')
    | (Raised e, w') =>
        match handler e with
        | Some h => h w'
        | None => (Raised e, w')
        end
    end.

(** [for x in l: body x] *)
Fixpoint for_each {A} (l : list A) (body : A -> M unit) : M unit :=
  match l with
  | [] => mret tt
  | x :: l' => body x ;; for_each l' body
  end.

(** ** Library calls *)

Definition print (line : string) : M unit := fun w =>
  (Returned tt, World (fs w) (console w ++ [line]) (calls w)).

(** [str] on a Python int. *)
Definition str (n : Z) : string := pretty n.

Definition os_path_exists (p : string) : M bool := fun w =>
  (Returned (bool_decide (is_Some (fs w !! p))), w).

Fixpoint ends_with_sep (s : string) : bool :=
  match s with
  | EmptyString => false
  | String c EmptyString => bool_decide (c = "/"%char)
  | String _ s' => ends_with_sep s'
  end.

(** [os.path.join] (posixpath) on two components. *)
Definition os_path_join (a b : string) : string :=
  if String.prefix "/" b || bool_decide (a = "") then b
  else if ends_with_sep a then a +:+ b
  else a +:+ "/" +:+ b.

(** [os.makedirs(p, exist_ok=True)].  The model tracks the directory
    itself.  Its ancestors are not represented, nor are the errors that
    depend on them or on permissions ([NotADirectoryError] for a target
    under a regular file, [PermissionError]): what is proved about a run
    is stated for the case where this call returns, or for whatever
    exception it raises. *)
Definition os_makedirs_exist_ok (p : string) : M unit := fun w =>
  if bool_decide (p = "") then (Raised (FileNotFoundError p), w)
  else
    match fs w !! p with
    | Some Dir => (Returned tt, w)
    | Some (File _) => (Raised (FileExistsError p), w)
    | None => (Returned tt, World (<[p := Dir]> (fs w)) (console w) (calls w))
    end.

(** [os.remove(p)] *)
Definition os_remove (p : string) : M unit := fun w =>
  match fs w !! p with
  | Some (File _) => (Returned tt, World (delete p (fs w)) (console w) (calls w))
  | Some Dir => (Raised (PermissionError p), w)
  | None => (Raised (FileNotFoundError p), w)
  end.

(** How a launched command ends. *)
Inductive completion :=
| Exited (returncode : Z) (fs' : gmap string node)
| NotLaunched.

(** ** The icon table (lines 13-44) *)

Definition targets : list (string * Z * Z) := [
  ("android-chrome-144x144.png", 144, 144);
  ("android-chrome-192x192.png", 192, 192);
  ("android-chrome-256x256.png", 256, 256);
  ("android-chrome-36x36.png", 36, 36);
  ("android-chrome-384x384.png", 384, 384);
  ("android-chrome-48x48.png", 48, 48);
  ("android-chrome-512x512.png", 512, 512);
  ("android-chrome-72x72.png", 72, 72);
  ("android-chrome-96x96.png", 96, 96);
  ("apple-touch-icon-1024x1024.png", 1024, 1024);
  ("apple-touch-icon-114x114.png", 114, 114);
  ("apple-touch-icon-120x120.png", 120, 120);
  ("apple-touch-icon-144x144.png", 144, 144);
  ("apple-touch-icon-152x152.png", 152, 152);
  ("apple-touch-icon-167x167.png", 167, 167);
  ("apple-touch-icon-180x180.png", 180, 180);
  ("apple-touch-icon-57x57.png", 57, 57);
  ("apple-touch-icon-60x60.png", 60, 60);
  ("apple-touch-icon-72x72.png", 72, 72);
  ("apple-touch-icon-76x76.png", 76, 76);
  ("apple-touch-icon-precomposed.png", 180, 180);
  ("apple-touch-icon.png", 180, 180);
  ("favicon-16x16.png", 16, 16);
  ("favicon-32x32.png", 32, 32);
  ("favicon-48x48.png", 48, 48);
  ("mstile-144x144.png", 144, 144);
  ("mstile-150x150.png", 150, 150);
  ("mstile-310x310.png", 310, 310);
  ("mstile-70x70.png", 70, 70);
  ("yandex-browser-50x50.png", 50, 50)
].

(** ** The script *)

Section Generator.

(** The programs reachable through [subprocess.run]: given the world
    at the time of the call and the argument vector, either the program
    cannot be started or it exits with a status and leaves a
    filesystem behind. *)
Variable tool : world -> list string -> completion.

(** [subprocess.run(argv, check=True)]; captured output is dropped. *)
Definition subprocess_run_check (argv : list string) : M unit := fun w =>
  match tool w argv with
  | NotLaunched =>
      (Raised (FileNotFoundError (hd "" argv)),
       World (fs w) (console w) (calls w ++ [argv]))
  | Exited rc fs' =>
      let w' := World fs' (console w) (calls w ++ [argv]) in
      if bool_decide (rc = 0) then (Returned tt, w')
      else (Raised (CalledProcessError rc argv), w')
  end.

Section Body.
Variables source_path target_dir : string.

(** argv of the resize in the loop (lines 50-52) *)
Definition resize_cmd (t : string * Z * Z) : list string :=
  let '(filename, width, height) := t in
  let target_path := os_path_join target_dir filename in
  ["sips"; "-z"; str height; str width; source_path; "--out"; target_path].

(** line 47 *)
Definition progress_line (t : string * Z * Z) : string :=
  let '(filename, width, height) := t in
  "Generating " +:+ filename +:+ " (" +:+ str width +:+ "x" +:+ str height +:+ ")...".

(** body of the loop (lines 47-52) *)
Definition resize_target (t : string * Z * Z) : M unit :=
  print (progress_line t) ;;
  subprocess_run_check (resize_cmd t).

(** argv of lines 58-60 *)
Definition tile_cmd : list string :=
  ["sips"; "-z"; "150"; "310"; source_path; "--out";
   os_path_join target_dir "mstile-310x150.png"].

Definition temp_ico_png : string := os_path_join target_dir "favicon_temp.png".
Definition favicon_ico : string := os_path_join target_dir "favicon.ico".

(** argv of lines 65-67 *)
Definition temp_cmd : list string :=
  ["sips"; "-z"; "32"; "32"; source_path; "--out"; temp_ico_png].

(** argv of lines 73-75 *)
Definition convert_cmd : list string :=
  ["sips"; "-s"; "format"; "ico"; temp_ico_png; "--out"; favicon_ico].

(** argv of line 78 *)
Definition cp_cmd : list string := ["cp"; temp_ico_png; favicon_ico].

Definition fallback_notice : string :=
  "sips ico export failed, falling back to PNG-as-ICO...".

(** lines 72-78 *)
Definition convert_or_fallback : M unit :=
  try_except (subprocess_run_check convert_cmd)
    (fun e => match e with
              | CalledProcessError _ _ =>
                  Some (print fallback_notice ;; subprocess_run_check cp_cmd)
              | _ => None
              end).

(** lines 9-80: what runs once the source is known to exist *)
Definition generate_existing : M value :=
  os_makedirs_exist_ok target_dir ;;
  for_each targets resize_target ;;
  print "Generating mstile-310x150.png..." ;;
  subprocess_run_check tile_cmd ;;
  print "Generating favicon.ico..." ;;
  subprocess_run_check temp_cmd ;;
  convert_or_fallback ;;
  os_remove temp_ico_png ;;
  mret PyNone.

(** lines 9-67 on their own: the part of the run that precedes the
    conversion *)
Definition before_convert : M unit :=
  os_makedirs_exist_ok target_dir ;;
  for_each targets resize_target ;;
  print "Generating mstile-310x150.png..." ;;
  subprocess_run_check tile_cmd ;;
  print "Generating favicon.ico..." ;;
  subprocess_run_check temp_cmd.

Definition not_found_line : string :=
  "Error: Source file " +:+ source_path +:+ " not found.".

(** lines 4-80 *)
Definition generate_favicons : M value :=
  found ← os_path_exists source_path;
  if negb found then
    print not_found_line ;; mret PyNone
  else generate_existing.

End Body.
End Generator.

(** ** How the tools read their arguments, and a reference tool to run
       the model with *)

Definition digit_of (c : ascii) : option Z :=
  let n := Z.of_N (N_of_ascii c) in
  if (48 <=? n) && (n <=? 57) then Some (n - 48) else None.

Fixpoint parse_digits (acc : Z) (s : string) : option Z :=
  match s with
  | EmptyString => Some acc
  | String c s' =>
      match digit_of c with
      | Some d => parse_digits (10 * acc + d) s'
      | None => None
      end
  end.

(** Reading of a pixel count on the command line: a nonempty run of
    decimal digits. *)
Definition parse_pixels (s : string) : option Z :=
  match s with
  | EmptyString => None
  | _ => parse_digits 0 s
  end.

(** [sips -z H W src --out dst] resamples to height [H] and width [W],
    keeping the encoding; [sips -s format ico] re-encodes when this build
    supports ICO and exits with status 13 otherwise; [cp src dst]
    copies; no other program is installed. *)
Definition reference_tool (ico_supported : bool) (w : world) (argv : list string)
    : completion :=
  match argv with
  | [prog; a; b; c; src; out; dst] =>
      if bool_decide (prog = "sips" /\ out = "--out") then
        if bool_decide (a = "-z") then
          match parse_pixels b, parse_pixels c, fs w !! src with
          | Some h, Some wd, Some (File (Image enc _ _)) =>
              Exited 0 (<[dst := File (Image enc wd h)]> (fs w))
          | _, _, _ => Exited 1 (fs w)
          end
        else if bool_decide (a = "-s" /\ b = "format" /\ c = "ico") then
          match fs w !! src with
          | Some (File (Image _ wd h)) =>
              if ico_supported
              then Exited 0 (<[dst := File (Image ICO wd h)]> (fs w))
              else Exited 13 (fs w)
          | _ => Exited 1 (fs w)
          end
        else Exited 2 (fs w)
      else NotLaunched
  | [prog; src; dst] =>
      if bool_decide (prog = "cp") then
        match fs w !! src with
        | Some (File f) => Exited 0 (<[dst := File f]> (fs w))
        | _ => Exited 1 (fs w)
        end
      else NotLaunched
  | _ => NotLaunched
  end.

(** ** Paths *)

(** A name that [os.path.join] appends to the directory. *)
Definition relative (b : string) : bool := negb (String.prefix "/" b).

(** What [os.path.join a] puts in front of a relative name. *)
Definition join_prefix (a : string) : string :=
  if bool_decide (a = "") then ""
  else if ends_with_sep a then a else a +:+ "/".

(** ** Names and paths of the files the script writes *)

(** Names of the files the script leaves in the target directory, and of
    the temporary one. *)
Definition output_names : list string :=
  map (fun t => t.1.1) targets ++ ["mstile-310x150.png"; "favicon.ico"].

Definition written_names : list string := "favicon_temp.png" :: output_names.

Definition output_paths (target_dir : string) : list string :=
  map (os_path_join target_dir) output_names.

(** Files of a filesystem that lie under a directory. *)
Definition files_in (target_dir : string) (m : gmap string node) : list string :=
  omap (fun '(p, n) =>
          match n with
          | File _ => if String.prefix (join_prefix target_dir) p then Some p else None
          | Dir => None
          end)
       (map_to_list m).

(** ** What is assumed of the external programs

    The script relies on the documented behaviour of the commands it
    starts: a command that exits with status 0 has written its
    destination, and nothing but its destination. *)
Record tool_contract (tool : world -> list string -> completion) : Prop := {
  (** [sips -z H W src --out dst] exited 0: [dst] is a file of [W] x [H]
      pixels *)
  resize_done : forall w hs ws h wd src dst fs',
    tool w ["sips"; "-z"; hs; ws; src; "--out"; dst] = Exited 0 fs' ->
    parse_pixels hs = Some h -> parse_pixels ws = Some wd ->
    exists enc, fs' = <[dst := File (Image enc wd h)]> (fs w);
  (** [sips -s format F src --out dst] exited 0: [dst] is a file *)
  convert_done : forall w fmt src dst fs',
    tool w ["sips"; "-s"; "format"; fmt; src; "--out"; dst] = Exited 0 fs' ->
    exists f, fs' = <[dst := File f]> (fs w);
  (** a failed conversion touches at most its destination *)
  convert_failed : forall w fmt src dst rc fs' p,
    tool w ["sips"; "-s"; "format"; fmt; src; "--out"; dst] = Exited rc fs' ->
    rc <> 0 -> p <> dst -> fs' !! p = fs w !! p;
  (** [cp src dst] exited 0: [dst] holds the bytes of the file [src] *)
  cp_done : forall w src dst fs',
    tool w ["cp"; src; dst] = Exited 0 fs' ->
    exists f, fs w !! src = Some (File f) /\ fs' = <[dst := File f]> (fs w)
}.

(** The programs are installed and work on any existing file. *)
Record tool_reliable (tool : world -> list string -> completion) : Prop := {
  resize_runs : forall w hs ws src dst f,
    fs w !! src = Some (File f) ->
    is_Some (parse_pixels hs) -> is_Some (parse_pixels ws) ->
    exists fs', tool w ["sips"; "-z"; hs; ws; src; "--out"; dst] = Exited 0 fs';
  convert_runs : forall w fmt src dst,
    exists rc fs', tool w ["sips"; "-s"; "format"; fmt; src; "--out"; dst] = Exited rc fs';
  cp_runs : forall w src dst f,
    fs w !! src = Some (File f) ->
    exists fs', tool w ["cp"; src; dst] = Exited 0 fs'
}.



Definition is_file (m : gmap string node) (p : string) : Prop :=
  exists f, m !! p = Some (File f).

(** The table's sizes survive the trip through [str] and the tool's
    reading of its arguments. *)
Definition pixels_ok (t : string * Z * Z) : Prop :=
  parse_pixels (str t.1.2) = Some t.1.2 /\ parse_pixels (str t.2) = Some t.2.

(** What the tile call would be with its two size arguments exchanged. *)
Definition swapped (argv : list string) : list string :=
  match argv with
  | prog :: flag :: a :: b :: rest => prog :: flag :: b :: a :: rest
  | _ => argv
  end.

(** ** Worlds and tools to run the model on *)

(** A tool that refuses every command whose last argument is [bad]. *)
Definition failing_on (bad : string)
    (tool : world -> list string -> completion) : world -> list string -> completion :=
  fun w argv =>
    if bool_decide (last argv = Some bad) then Exited 1 (fs w) else tool w argv.

Definition logo : image := Image PNG 2048 2048.

Definition world0 : world :=
  World {[ "public/logo.png" := File logo ]} [] [].

Definition empty_world : world := World ∅ [] [].

Definition run0 (ico : bool) : outcome value * world :=
  generate_favicons (reference_tool ico) "public/logo.png" "out/icons" world0.

(** A [sips] that cannot write [android-chrome-36x36.png]. *)
Definition sips_fails_at_36 : world -> list string -> completion :=
  failing_on "out/icons/android-chrome-36x36.png" (reference_tool true).

Definition run_to_36 : outcome unit * world :=
  (os_makedirs_exist_ok "out/icons" ;;
   for_each (take 3 targets)
            (resize_target sips_fails_at_36 "public/logo.png" "out/icons")) world0.


(** A tool on which both the conversion and the copy fail. *)
Definition no_ico_no_cp : world -> list string -> completion :=
  failing_on "out/icons/favicon.ico" (reference_tool false).

(** A world in which the source is the very path the script uses for its
    temporary file. *)
Definition world_alias : world :=
  World {[ "out/icons/favicon_temp.png" := File logo ]} [] [].

Definition first_alias_run : outcome value * world :=
  generate_favicons (reference_tool true)
    "out/icons/favicon_temp.png" "out/icons" world_alias.

Definition second_alias_run : outcome value * world :=
  generate_favicons (reference_tool true)
    "out/icons/favicon_temp.png" "out/icons" first_alias_run.2.

(** ** The direct-run mode (lines 82-87) *)

Definition SOURCE : string :=
  "/Users/hmenon/Documents/Projects/Alethia/public/ARGUS_Logo.png".

Definition TARGET : string :=
  "/Users/hmenon/Documents/Projects/Alethia/.tmp/new_favicons".

(** body of [if __name__ == "__main__":] *)
Definition main (tool : world -> list string -> completion) : M unit :=
  generate_favicons tool SOURCE TARGET ;;
  print ("Done! Favicons generated in " +:+ TARGET).

(** No program at all is installed. *)
Definition no_tool : world -> list string -> completion :=
  fun _ _ => NotLaunched.

(** A [sips] that cannot write the tile, and one that cannot write the
    intermediate. *)
Definition sips_fails_at_tile : world -> list string -> completion :=
  failing_on "out/icons/mstile-310x150.png" (reference_tool true).

Definition sips_fails_at_temp : world -> list string -> completion :=
  failing_on "out/icons/favicon_temp.png" (reference_tool true).

(** A world in which the target directory is taken by a regular file. *)
Definition world_dir_is_file : world :=
  World {[ "public/logo.png" := File logo; "out/icons" := File logo ]} [] [].

(** A world in which an earlier run has left a stale intermediate and a
    stale [favicon.ico] in the target directory. *)
Definition world_stale : world :=
  World {[ "public/logo.png" := File logo;
           "out/icons" := Dir;
           "out/icons/favicon_temp.png" := File (Image JPEG 7 7);
           "out/icons/favicon.ico" := File (Image JPEG 9 9) ]} [] [].



(** A tool that refuses to write a destination that already exists. *)
Definition never_overwrites (tool : world -> list string -> completion)
    : world -> list string -> completion :=
  fun w argv =>
    match last argv with
    | Some dest =>
        if bool_decide (is_Some (fs w !! dest)) then Exited 1 (fs w)
        else tool w argv
    | None => tool w argv
    end.

Definition careful_tool : world -> list string -> completion :=
  never_overwrites (reference_tool true).

Definition first_careful_run : outcome value * world :=
  generate_favicons careful_tool "public/logo.png" "out/icons" world0.

Definition second_careful_run : outcome value * world :=
  generate_favicons careful_tool "public/logo.png" "out/icons"
    first_careful_run.2.

(** * Properties *)

Lemma string_app_assoc (a b c : string) : (a +:+ b) +:+ c = a +:+ (b +:+ c).
Proof.
  induction a as [|x a IH]; [done|].
  change (String x ((a +:+ b) +:+ c) = String x (a +:+ (b +:+ c))).
  by rewrite IH.
Qed.

Lemma string_app_nil_r (a b : string) : a +:+ b = a -> b = "".
Proof.
  induction a as [|x a IH]; [done|].
  change (String x (a +:+ b) = String x a -> b = "").
  intros H. injection H as H. auto.
Qed.

Lemma os_path_join_relative a b :
  relative b = true -> os_path_join a b = join_prefix a +:+ b.
Proof.
  unfold relative, os_path_join, join_prefix. intros H.
  apply negb_true_iff in H. rewrite H. cbn [orb].
  case_bool_decide; [done|].
  destruct (ends_with_sep a); [done|]. by rewrite string_app_assoc.
Qed.

Lemma os_path_join_inj a b b' :
  relative b = true -> relative b' = true ->
  os_path_join a b = os_path_join a b' -> b = b'.
Proof.
  intros Hb Hb'. rewrite !os_path_join_relative by done.
  apply String.app_inj.
Qed.

Lemma os_path_join_ne_dir a b :
  relative b = true -> b <> "" -> a <> "" -> os_path_join a b <> a.
Proof.
  intros Hb Hne Ha. rewrite os_path_join_relative by done.
  unfold join_prefix. case_bool_decide; [done|].
  destruct (ends_with_sep a).
  - intros Hj. by apply string_app_nil_r in Hj.
  - rewrite string_app_assoc. intros Hj. by apply string_app_nil_r in Hj.
Qed.

Lemma NoDup_os_path_join a (names : list string) :
  Forall (fun b => relative b = true) names ->
  NoDup names -> NoDup (map (os_path_join a) names).
Proof.
  intros Hrel Hnd. induction Hnd as [|b names Hnotin Hnd IH]; [constructor|].
  apply Forall_cons in Hrel as [Hb Hrel].
  cbn. constructor; [|by apply IH].
  rewrite list_elem_of_In, in_map_iff. intros (b' & Heq & Hin).
  apply os_path_join_inj in Heq; [|by eapply Forall_forall in Hrel; [|apply list_elem_of_In, Hin]|done].
  subst. by apply Hnotin, list_elem_of_In.
Qed.

Lemma written_names_relative : Forall (fun b => relative b = true) written_names.
Proof. apply (bool_decide_unpack _). by vm_compute. Qed.

Lemma written_names_NoDup : NoDup written_names.
Proof. apply (bool_decide_unpack _). by vm_compute. Qed.

Lemma written_names_nonempty : Forall (fun b => b <> "") written_names.
Proof. apply (bool_decide_unpack _). by vm_compute. Qed.


Local Ltac run_reference :=
  cbn;
  repeat (rewrite bool_decide_eq_true_2 by done);
  repeat (rewrite bool_decide_eq_false_2 by (by intros ?; destruct_and?)).

Lemma reference_tool_contract ico : tool_contract (reference_tool ico).
Proof.
  split.
  - intros w hs ws h wd src dst fs' Hrun Hh Hw.
    revert Hrun. run_reference. rewrite Hh, Hw.
    destruct (fs w !! src) as [[|[enc ? ?]]|]; intros; simplify_eq. by exists enc.
  - intros w fmt src dst fs' Hrun. revert Hrun. run_reference.
    case_bool_decide; [|intros; simplify_eq].
    destruct (fs w !! src) as [[|[enc ? ?]]|], ico; intros; simplify_eq. eauto.
  - intros w fmt src dst rc fs' p Hrun Hrc _. revert Hrun. run_reference.
    case_bool_decide;
      destruct (fs w !! src) as [[|[enc ? ?]]|], ico; intros; by simplify_eq.
  - intros w src dst fs' Hrun. revert Hrun. run_reference.
    destruct (fs w !! src) as [[|f]|]; intros; simplify_eq. eauto.
Qed.

Lemma reference_tool_reliable ico : tool_reliable (reference_tool ico).
Proof.
  split.
  - intros w hs ws src dst [enc a b] Hsrc [h Hh] [wd Hw].
    run_reference. rewrite Hh, Hw, Hsrc. eauto.
  - intros w fmt src dst. run_reference.
    case_bool_decide;
      destruct (fs w !! src) as [[|[enc ? ?]]|], ico; eauto.
  - intros w src dst f Hsrc. run_reference. rewrite Hsrc. eauto.
Qed.

(** ** Running monadic programs *)

Lemma bind_returned {A B} (m : M A) (k : A -> M B) w b w' :
  (m ≫= k) w = (Returned b, w') <->
  exists a w1, m w = (Returned a, w1) /\ k a w1 = (Returned b, w').
Proof.
  unfold mbind, M_bind. split.
  - destruct (m w) as [[a|e] w1]; [eauto|done].
  - intros (a & w1 & -> & Hk). done.
Qed.


Lemma bind_run {A B} (m : M A) (k : A -> M B) w a w1 :
  m w = (Returned a, w1) -> (m ≫= k) w = k a w1.
Proof. unfold mbind, M_bind. by intros ->. Qed.

Lemma bind_abort {A B} (m : M A) (k : A -> M B) w e w1 :
  m w = (Raised e, w1) -> (m ≫= k) w = (Raised e, w1).
Proof. unfold mbind, M_bind. by intros ->. Qed.

(** A run is known by its outcome and the world it leaves. *)
Lemma returned_with_world {A} (r : outcome A * world) (a : A) :
  r.1 = Returned a -> r = (Returned a, r.2).
Proof. destruct r as [o w]. cbn. by intros ->. Qed.


Lemma print_run line w :
  print line w = (Returned tt, World (fs w) (console w ++ [line]) (calls w)).
Proof. done. Qed.

Lemma targets_pixels_ok : Forall pixels_ok targets.
Proof. repeat constructor. Qed.

Section Runs.
Variable tool : world -> list string -> completion.
Variables source_path target_dir : string.

Local Abbreviation resize_cmd := (resize_cmd source_path target_dir).
Local Abbreviation resize_target := (resize_target tool source_path target_dir).
Local Abbreviation tile_cmd := (tile_cmd source_path target_dir).
Local Abbreviation temp_cmd := (temp_cmd source_path target_dir).
Local Abbreviation convert_cmd := (convert_cmd target_dir).
Local Abbreviation cp_cmd := (cp_cmd target_dir).
Local Abbreviation temp_ico_png := (temp_ico_png target_dir).
Local Abbreviation favicon_ico := (favicon_ico target_dir).
Local Abbreviation dst := (fun t : string * Z * Z => os_path_join target_dir t.1.1).

Lemma run_returned argv w w' :
  subprocess_run_check tool argv w = (Returned tt, w') <->
  exists fs', tool w argv = Exited 0 fs' /\
              w' = World fs' (console w) (calls w ++ [argv]).
Proof.
  unfold subprocess_run_check. split.
  - destruct (tool w argv) as [rc fs'|]; [|done].
    case_bool_decide; [|done]. intros [= <-]. subst rc. eauto.
  - intros (fs' & -> & ->). done.
Qed.

Lemma run_raised argv w e w' :
  subprocess_run_check tool argv w = (Raised e, w') <->
  (tool w argv = NotLaunched /\ e = FileNotFoundError (hd "" argv) /\
   w' = World (fs w) (console w) (calls w ++ [argv])) \/
  (exists rc fs', tool w argv = Exited rc fs' /\ rc <> 0 /\
     e = CalledProcessError rc argv /\
     w' = World fs' (console w) (calls w ++ [argv])).
Proof.
  unfold subprocess_run_check. split.
  - destruct (tool w argv) as [rc fs'|].
    + case_bool_decide; [done|]. intros [= <- <-]. right. eauto 10.
    + intros [= <- <-]. by left.
  - intros [(-> & -> & ->)|(rc & fs' & -> & Hrc & -> & ->)]; [done|].
    by rewrite bool_decide_eq_false_2.
Qed.

(** *** The loop *)

Lemma resize_target_returned t w w' :
  resize_target t w = (Returned tt, w') <->
  exists fs',
    tool (World (fs w) (console w ++ [progress_line t]) (calls w))
         (resize_cmd t) = Exited 0 fs' /\
    w' = World fs' (console w ++ [progress_line t]) (calls w ++ [resize_cmd t]).
Proof.
  unfold resize_target. rewrite bind_returned. split.
  - intros (a & w1 & Hp & Hr). rewrite print_run in Hp. simplify_eq.
    by apply run_returned in Hr.
  - intros (fs' & Ht & ->). eexists tt, _. split; [apply print_run|].
    apply run_returned. eauto.
Qed.

Lemma for_each_returned l w w' :
  for_each l resize_target w = (Returned tt, w') ->
  calls w' = calls w ++ map resize_cmd l /\
  console w' = console w ++ map progress_line l.
Proof.
  revert w. induction l as [|t l IH]; intros w.
  - intros [= <-]. by rewrite !app_nil_r.
  - cbn [for_each]. rewrite bind_returned.
    intros ([] & w1 & (fs' & _ & ->)%resize_target_returned & Hl).
    apply IH in Hl as [-> ->]. cbn. by rewrite <- !app_assoc.
Qed.

Section WithContract.
Hypothesis contract : tool_contract tool.

Lemma resize_target_fs t w w' :
  pixels_ok t ->
  resize_target t w = (Returned tt, w') ->
  exists enc, fs w' = <[dst t := File (Image enc t.1.2 t.2)]> (fs w).
Proof.
  intros [Hw Hh] (fs' & Ht & ->)%resize_target_returned.
  destruct t as [[fn wd] h]. cbn in *.
  by eapply (resize_done _ contract) in Ht.
Qed.

Lemma for_each_frame l w w' p :
  Forall pixels_ok l ->
  for_each l resize_target w = (Returned tt, w') ->
  p ∉ map dst l -> fs w' !! p = fs w !! p.
Proof.
  revert w. induction l as [|t l IH]; intros w Hok.
  - by intros [= <-].
  - apply Forall_cons in Hok as [Ht Hok].
    cbn [for_each]. rewrite bind_returned.
    intros ([] & w1 & H1 & Hl) Hp.
    apply resize_target_fs in H1 as [enc H1]; [|done].
    cbn in Hp. apply not_elem_of_cons in Hp as [Hne Hp].
    rewrite (IH _ Hok Hl Hp), H1. by apply lookup_insert_ne.
Qed.

Lemma for_each_written l w w' t :
  Forall pixels_ok l -> NoDup (map dst l) ->
  for_each l resize_target w = (Returned tt, w') ->
  t ∈ l ->
  exists enc, fs w' !! dst t = Some (File (Image enc t.1.2 t.2)).
Proof.
  revert w. induction l as [|t0 l IH]; intros w Hok Hnd.
  - intros _ Hin. by apply elem_of_nil in Hin.
  - apply Forall_cons in Hok as [Ht0 Hok].
    cbn in Hnd. apply NoDup_cons in Hnd as [Hfresh Hnd].
    cbn [for_each]. rewrite bind_returned.
    intros ([] & w1 & H1 & Hl) [->|Hin]%elem_of_cons.
    + apply resize_target_fs in H1 as [enc H1]; [|done].
      exists enc. rewrite (for_each_frame _ _ _ _ Hok Hl Hfresh), H1.
      apply lookup_insert_eq.
    + eauto.
Qed.

Lemma for_each_keeps_files l w w' p :
  Forall pixels_ok l ->
  for_each l resize_target w = (Returned tt, w') ->
  is_file (fs w) p -> is_file (fs w') p.
Proof.
  revert w. induction l as [|t l IH]; intros w Hok.
  - by intros [= <-].
  - apply Forall_cons in Hok as [Ht Hok].
    cbn [for_each]. rewrite bind_returned.
    intros ([] & w1 & H1 & Hl) Hp. apply (IH _ Hok Hl).
    apply resize_target_fs in H1 as [enc H1]; [|done]. rewrite H1.
    unfold is_file. destruct (decide (dst t = p)) as [<-|Hne].
    * rewrite lookup_insert_eq. eauto.
    * by rewrite lookup_insert_ne.
Qed.

(** *** The ICO step (lines 72-78) *)

Lemma convert_or_fallback_returned w w' :
  convert_or_fallback tool target_dir w = (Returned tt, w') ->
  (exists fs1, tool w convert_cmd = Exited 0 fs1 /\
     w' = World fs1 (console w) (calls w ++ [convert_cmd])) \/
  (exists rc fs1 fs2, tool w convert_cmd = Exited rc fs1 /\ rc <> 0 /\
     tool (World fs1 (console w ++ [fallback_notice]) (calls w ++ [convert_cmd]))
          cp_cmd = Exited 0 fs2 /\
     w' = World fs2 (console w ++ [fallback_notice])
                (calls w ++ [convert_cmd; cp_cmd])).
Proof.
  unfold convert_or_fallback, try_except.
  destruct (subprocess_run_check tool convert_cmd w) as [[[]|e] w1] eqn:Hc.
  - intros [= <-]. left. by apply run_returned in Hc.
  - apply run_raised in Hc
      as [(_ & -> & _)|(rc & fs1 & Ht & Hrc & -> & ->)]; [done|].
    rewrite bind_returned. intros ([] & w2 & Hp & Hcp).
    rewrite print_run in Hp. simplify_eq.
    apply run_returned in Hcp as (fs2 & Hcp & ->). cbn in *.
    right. exists rc, fs1, fs2. by rewrite <- app_assoc.
Qed.

(** After the ICO step [favicon.ico] is a file and nothing else has
    changed; on the fallback path it holds the bytes of the
    intermediate. *)
Lemma convert_or_fallback_fs w w' :
  convert_or_fallback tool target_dir w = (Returned tt, w') ->
  exists fi tail,
    fs w' = <[favicon_ico := File fi]> (fs w) /\
    console w' = console w ++ map (fun _ => fallback_notice) tail /\
    calls w' = calls w ++ convert_cmd :: tail /\
    (tail = [] \/
     tail = [cp_cmd] /\ fs w !! temp_ico_png = Some (File fi)).
Proof.
  intros [(fs1 & Ht & ->)|(rc & fs1 & fs2 & Ht & Hrc & Hcp & ->)]%convert_or_fallback_returned.
  - apply (convert_done _ contract) in Ht as [fi ->].
    exists fi, []. cbn. rewrite app_nil_r. auto.
  - apply (cp_done _ contract) in Hcp as (fi & Htemp & ->). cbn in *.
    assert (Hne : temp_ico_png <> favicon_ico).
    { intros Heq. by apply os_path_join_inj in Heq. }
    exists fi, [cp_cmd]. cbn. split_and!; [|done|done|].
    + apply map_eq. intros p. destruct (decide (favicon_ico = p)) as [<-|Hp].
      * by rewrite !lookup_insert_eq.
      * rewrite !lookup_insert_ne by done.
        by apply (convert_failed _ contract _ _ _ _ _ _ p) in Ht.
    + right. split; [done|].
      by rewrite <- (convert_failed _ contract _ _ _ _ _ _ _ Ht Hrc Hne).
Qed.

(** *** The whole run on an existing source (lines 9-80) *)

Lemma os_makedirs_returned p w w' :
  os_makedirs_exist_ok p w = (Returned tt, w') ->
  p <> "" /\ fs w' = <[p := Dir]> (fs w) /\
  console w' = console w /\ calls w' = calls w.
Proof.
  unfold os_makedirs_exist_ok. case_bool_decide; [done|].
  destruct (fs w !! p) as [[|f]|] eqn:Hp; [| done |].
  - intros [= <-]. by rewrite insert_id.
  - by intros [= <-].
Qed.

Lemma generate_existing_returned w v w' :
  generate_existing tool source_path target_dir w = (Returned v, w') ->
  exists w0 wl e1 e2 fi tail,
    os_makedirs_exist_ok target_dir w = (Returned tt, w0) /\
    for_each targets resize_target w0 = (Returned tt, wl) /\
    fs w' = delete temp_ico_png
              (<[favicon_ico := File fi]>
                 (<[temp_ico_png := File (Image e2 32 32)]>
                    (<[os_path_join target_dir "mstile-310x150.png"
                         := File (Image e1 310 150)]> (fs wl)))) /\
    console w' = console wl ++
                 ["Generating mstile-310x150.png..."; "Generating favicon.ico..."] ++
                 map (fun _ => fallback_notice) tail /\
    calls w' = calls wl ++ [tile_cmd; temp_cmd; convert_cmd] ++ tail /\
    (tail = [] \/ tail = [cp_cmd] /\ fi = Image e2 32 32).
Proof.
  unfold generate_existing.
  rewrite bind_returned. intros ([] & w0 & Hmk & H).
  apply bind_returned in H as ([] & wl & Hloop & H).
  apply bind_returned in H as ([] & w1 & Hp1 & H).
  rewrite print_run in Hp1. simplify_eq.
  apply bind_returned in H as ([] & w2 & Htile & H).
  apply run_returned in Htile as (fs2 & Htile & ->).
  apply (resize_done _ contract _ _ _ 150 310) in Htile as [e1 ->]; [|done..].
  apply bind_returned in H as ([] & w3 & Hp2 & H).
  rewrite print_run in Hp2. simplify_eq.
  apply bind_returned in H as ([] & w4 & Htemp & H).
  apply run_returned in Htemp as (fs4 & Htemp & ->).
  apply (resize_done _ contract _ _ _ 32 32) in Htemp as [e2 ->]; [|done..].
  apply bind_returned in H as ([] & w5 & Hico & H).
  apply convert_or_fallback_fs in Hico as (fi & tail & Hfs & Hcon & Hcalls & Htail).
  apply bind_returned in H as ([] & w6 & Hrm & H).
  assert (w6 = w') as <- by (unfold mret, M_ret in H; congruence).
  clear H.
  unfold os_remove in Hrm.
  destruct (fs w5 !! temp_ico_png) as [[|ft]|]; simplify_eq.
  cbn in *. exists w0, wl, e1, e2, fi, tail.
  rewrite Hfs, Hcon, Hcalls. rewrite <- !app_assoc. split_and!; try done.
  destruct Htail as [->|[-> Hfi]]; [by left|right].
  rewrite lookup_insert_eq in Hfi. by simplify_eq.
Qed.
End WithContract.

(** *** The guard on the source (lines 5-7) *)

Lemma generate_favicons_found w :
  is_Some (fs w !! source_path) ->
  generate_favicons tool source_path target_dir w
  = generate_existing tool source_path target_dir w.
Proof.
  intros Hsrc. unfold generate_favicons, mbind, M_bind, os_path_exists.
  by rewrite bool_decide_eq_true_2.
Qed.

Lemma generate_favicons_missing w :
  fs w !! source_path = None ->
  generate_favicons tool source_path target_dir w
  = (Returned PyNone,
     World (fs w) (console w ++ [not_found_line source_path]) (calls w)).
Proof.
  intros Hsrc. unfold generate_favicons, mbind, M_bind, os_path_exists.
  rewrite bool_decide_eq_false_2; [done|].
  rewrite Hsrc. by intros [? ?].
Qed.
(** *** The run as three phases *)

Lemma generate_existing_split w :
  generate_existing tool source_path target_dir w
  = (before_convert tool source_path target_dir ;;
     convert_or_fallback tool target_dir ;;
     os_remove temp_ico_png ;;
     mret PyNone) w.
Proof.
  unfold generate_existing, before_convert, mbind, M_bind.
  destruct (os_makedirs_exist_ok target_dir w) as [[[]|?] w0]; [|done].
  destruct (for_each targets resize_target w0) as [[[]|?] wl]; [|done].
  destruct (print _ wl) as [[[]|?] w1]; [|done].
  destruct (subprocess_run_check tool tile_cmd w1) as [[[]|?] w2]; [|done].
  destruct (print _ w2) as [[[]|?] w3]; [|done].
  by destruct (subprocess_run_check tool temp_cmd w3) as [[[]|?] w4].
Qed.




Lemma phases_returned w w1 w2 w3 :
  is_Some (fs w !! source_path) ->
  before_convert tool source_path target_dir w = (Returned tt, w1) ->
  convert_or_fallback tool target_dir w1 = (Returned tt, w2) ->
  os_remove temp_ico_png w2 = (Returned tt, w3) ->
  generate_favicons tool source_path target_dir w = (Returned PyNone, w3).
Proof.
  intros Hsrc Hpre Hico Hrm.
  rewrite generate_favicons_found, generate_existing_split by done.
  rewrite (bind_run _ _ _ _ _ Hpre), (bind_run _ _ _ _ _ Hico).
  by rewrite (bind_run _ _ _ _ _ Hrm).
Qed.

Lemma returned_phases w v w' :
  is_Some (fs w !! source_path) ->
  generate_favicons tool source_path target_dir w = (Returned v, w') ->
  exists w1 w2,
    before_convert tool source_path target_dir w = (Returned tt, w1) /\
    convert_or_fallback tool target_dir w1 = (Returned tt, w2) /\
    os_remove temp_ico_png w2 = (Returned tt, w').
Proof.
  intros Hsrc.
  rewrite generate_favicons_found, generate_existing_split by done.
  rewrite bind_returned. intros ([] & w1 & Hpre & H).
  apply bind_returned in H as ([] & w2 & Hico & H).
  apply bind_returned in H as ([] & w3 & Hrm & H).
  assert (w3 = w') as <- by (unfold mret, M_ret in H; congruence).
  eauto.
Qed.
End Runs.

(** ** Facts about the paths the script writes *)

Lemma target_names_fresh :
  Forall (fun t : string * Z * Z =>
            t.1.1 ∉ ["mstile-310x150.png"; "favicon.ico"; "favicon_temp.png"])
         targets.
Proof. apply (bool_decide_unpack _). by vm_compute. Qed.

Lemma target_name_written (t : string * Z * Z) :
  t ∈ targets -> t.1.1 ∈ written_names.
Proof.
  intros Hin. unfold written_names, output_names.
  apply elem_of_cons. right. apply elem_of_app. left.
  apply list_elem_of_In, (in_map (fun t : string * Z * Z => t.1.1)), list_elem_of_In, Hin.
Qed.

Lemma written_join_ne dir a b :
  a ∈ written_names -> b ∈ written_names -> a <> b ->
  os_path_join dir a <> os_path_join dir b.
Proof.
  intros Ha Hb Hne Heq. apply Hne.
  pose proof written_names_relative as Hrel.
  rewrite Forall_forall in Hrel.
  by apply (os_path_join_inj dir); [apply Hrel| apply Hrel|].
Qed.

Lemma written_join_ne_dir dir a :
  a ∈ written_names -> dir <> "" -> os_path_join dir a <> dir.
Proof.
  intros Ha Hdir.
  pose proof written_names_relative as Hrel.
  pose proof written_names_nonempty as Hne.
  rewrite Forall_forall in Hrel. rewrite Forall_forall in Hne.
  apply os_path_join_ne_dir; auto.
Qed.

Lemma tile_written : "mstile-310x150.png" ∈ written_names.
Proof. apply (bool_decide_unpack _). by vm_compute. Qed.

Lemma ico_written : "favicon.ico" ∈ written_names.
Proof. apply (bool_decide_unpack _). by vm_compute. Qed.

Lemma temp_written : "favicon_temp.png" ∈ written_names.
Proof. apply (bool_decide_unpack _). by vm_compute. Qed.

Lemma target_path_fresh dir (t : string * Z * Z) :
  t ∈ targets ->
  os_path_join dir t.1.1 <> os_path_join dir "mstile-310x150.png" /\
  os_path_join dir t.1.1 <> favicon_ico dir /\
  os_path_join dir t.1.1 <> temp_ico_png dir.
Proof.
  intros Hin. pose proof target_names_fresh as Hfresh.
  rewrite Forall_forall in Hfresh. specialize (Hfresh _ Hin).
  pose proof (target_name_written _ Hin) as Hw.
  split_and!; apply written_join_ne; auto using tile_written, ico_written, temp_written;
    intros Heq; apply Hfresh; rewrite Heq; apply (bool_decide_unpack _); by vm_compute.
Qed.

Lemma target_paths_NoDup dir :
  NoDup (map (fun t : string * Z * Z => os_path_join dir t.1.1) targets).
Proof.
  rewrite <- (map_map (fun t : string * Z * Z => t.1.1) (os_path_join dir)).
  apply NoDup_os_path_join.
  - apply (bool_decide_unpack _). by vm_compute.
  - apply (bool_decide_unpack _). by vm_compute.
Qed.

Lemma output_paths_NoDup dir : NoDup (output_paths dir).
Proof.
  apply NoDup_os_path_join.
  - apply (bool_decide_unpack _). by vm_compute.
  - apply (bool_decide_unpack _). by vm_compute.
Qed.

(** ** The state a completed run leaves behind *)

Section Finished.
Variable tool : world -> list string -> completion.
Variables source_path target_dir : string.
Hypothesis contract : tool_contract tool.
Variables (w w' : world) (v : value).
Hypothesis found : is_Some (fs w !! source_path).
Hypothesis returned :
  generate_favicons tool source_path target_dir w = (Returned v, w').

Local Abbreviation dst := (fun t : string * Z * Z => os_path_join target_dir t.1.1).
Local Abbreviation tile := (os_path_join target_dir "mstile-310x150.png").

Lemma finished_shape :
  exists wl e1 e2 fi tail,
    target_dir <> "" /\
    for_each targets (resize_target tool source_path target_dir)
      (World (<[target_dir := Dir]> (fs w)) (console w) (calls w))
    = (Returned tt, wl) /\
    fs w' = delete (temp_ico_png target_dir)
              (<[favicon_ico target_dir := File fi]>
                 (<[temp_ico_png target_dir := File (Image e2 32 32)]>
                    (<[tile := File (Image e1 310 150)]> (fs wl)))) /\
    calls w' = calls w ++ map (resize_cmd source_path target_dir) targets ++
               [tile_cmd source_path target_dir; temp_cmd source_path target_dir;
                convert_cmd target_dir] ++ tail /\
    (tail = [] \/ tail = [cp_cmd target_dir] /\ fi = Image e2 32 32).
Proof.
  pose proof returned as Hrun.
  rewrite generate_favicons_found in Hrun by done.
  apply generate_existing_returned in Hrun
    as (w0 & wl & e1 & e2 & fi & tail & Hmk & Hloop & Hfs & _ & Hcalls & Htail);
    [|done].
  apply os_makedirs_returned in Hmk as (Hdir & Hfs0 & Hcon0 & Hcalls0).
  destruct w0 as [fs0 con0 calls0]. cbn [fs console calls] in *. subst.
  exists wl, e1, e2, fi, tail. split_and!; try done.
  apply for_each_returned in Hloop as [Hc _]. cbn [calls] in Hc.
  by rewrite Hcalls, Hc, <- app_assoc.
Qed.

Lemma finished_target t :
  t ∈ targets ->
  exists enc, fs w' !! dst t = Some (File (Image enc t.1.2 t.2)).
Proof.
  intros Hin.
  destruct finished_shape as (wl & e1 & e2 & fi & tail & _ & Hloop & Hfs & _).
  destruct (target_path_fresh target_dir t Hin) as (Htile & Hico & Htemp).
  eapply for_each_written in Hloop as [enc Henc];
    eauto using targets_pixels_ok, target_paths_NoDup.
  exists enc. rewrite Hfs.
  rewrite lookup_delete_ne by done.
  by rewrite !lookup_insert_ne by done.
Qed.

Lemma finished_tile :
  exists enc, fs w' !! tile = Some (File (Image enc 310 150)).
Proof.
  destruct finished_shape as (wl & e1 & e2 & fi & tail & _ & _ & Hfs & _).
  exists e1. rewrite Hfs.
  rewrite lookup_delete_ne
    by (apply written_join_ne; auto using temp_written, tile_written).
  rewrite !lookup_insert_ne
    by (apply written_join_ne; auto using temp_written, tile_written, ico_written).
  apply lookup_insert_eq.
Qed.

Lemma finished_ico :
  exists fi, fs w' !! favicon_ico target_dir = Some (File fi).
Proof.
  destruct finished_shape as (wl & e1 & e2 & fi & tail & _ & _ & Hfs & _).
  exists fi. rewrite Hfs.
  rewrite lookup_delete_ne
    by (apply written_join_ne; auto using temp_written, ico_written).
  apply lookup_insert_eq.
Qed.

Lemma finished_temp : fs w' !! temp_ico_png target_dir = None.
Proof.
  destruct finished_shape as (wl & e1 & e2 & fi & tail & _ & _ & Hfs & _).
  rewrite Hfs. apply lookup_delete_eq.
Qed.

Lemma not_output_path p :
  p ∉ output_paths target_dir ->
  (p ∉ map dst targets) /\ p <> tile /\ p <> favicon_ico target_dir.
Proof.
  unfold output_paths, output_names. rewrite map_app, map_map.
  intros [Ht Hrest]%not_elem_of_app. split; [done|].
  cbn in Hrest. apply not_elem_of_cons in Hrest as [? Hrest].
  by apply not_elem_of_cons in Hrest as [? _].
Qed.

Lemma finished_frame p :
  p ∉ output_paths target_dir -> p <> temp_ico_png target_dir ->
  p <> target_dir ->
  fs w' !! p = fs w !! p.
Proof.
  intros (Ht & Htile & Hico)%not_output_path Htemp Hdir.
  destruct finished_shape as (wl & e1 & e2 & fi & tail & _ & Hloop & Hfs & _).
  rewrite Hfs. rewrite lookup_delete_ne by done.
  rewrite !lookup_insert_ne by done.
  rewrite (for_each_frame _ _ _ contract _ _ _ p targets_pixels_ok Hloop Ht).
  cbn [fs]. by rewrite lookup_insert_ne.
Qed.

Lemma finished_dir : fs w' !! target_dir = Some Dir.
Proof.
  destruct finished_shape as (wl & e1 & e2 & fi & tail & Hdir & Hloop & Hfs & _).
  rewrite Hfs.
  rewrite lookup_delete_ne
    by (intros Heq; by apply (written_join_ne_dir target_dir "favicon_temp.png");
        auto using temp_written).
  rewrite !lookup_insert_ne
    by (apply written_join_ne_dir;
        auto using temp_written, tile_written, ico_written).
  rewrite (for_each_frame _ _ _ contract _ _ _ target_dir targets_pixels_ok Hloop).
  - cbn [fs]. apply lookup_insert_eq.
  - rewrite list_elem_of_In, in_map_iff. intros (t & Heq & Hin).
    apply list_elem_of_In, target_name_written in Hin.
    by apply written_join_ne_dir in Heq.
Qed.

Lemma finished_keeps_file p :
  is_file (fs w) p -> p <> temp_ico_png target_dir -> is_file (fs w') p.
Proof.
  intros [f Hp] Htemp.
  destruct finished_shape as (wl & e1 & e2 & fi & tail & Hdir & Hloop & Hfs & _).
  assert (Hwl : is_file (fs wl) p).
  { apply (for_each_keeps_files _ _ _ contract _ _ _ p targets_pixels_ok Hloop).
    cbn [fs]. exists f. rewrite lookup_insert_ne; [done|].
    intros <-. pose proof returned as Hrun.
    rewrite generate_favicons_found in Hrun by done.
    unfold generate_existing in Hrun.
    apply bind_returned in Hrun as ([] & w0 & Hmk & _).
    unfold os_makedirs_exist_ok in Hmk. rewrite Hp in Hmk.
    by case_bool_decide. }
  unfold is_file. rewrite Hfs. rewrite lookup_delete_ne by done.
  repeat (rewrite lookup_insert; case_decide; [by eexists|]).
  exact Hwl.
Qed.

Lemma finished_outputs p :
  p ∈ output_paths target_dir -> is_file (fs w') p.
Proof.
  unfold output_paths, output_names. rewrite map_app, map_map.
  intros [Hin|Hin]%elem_of_app.
  - apply list_elem_of_In, in_map_iff in Hin as (t & <- & Hin).
    apply list_elem_of_In, finished_target in Hin as [enc Hin].
    by eexists.
  - cbn in Hin. apply elem_of_cons in Hin as [->|Hin].
    + destruct finished_tile as [enc H]. by eexists.
    + apply list_elem_of_singleton in Hin as ->. apply finished_ico.
Qed.
End Finished.

(** ** The icon table and the files of a run *)

(** C1, as the specification states it, fails: the table of lines 14-43
    has 30 entries, not 29, and the reference run leaves 32 files in the
    target directory, not 31. *)
Lemma table_is_not_29_entries :
  length targets <> 29%nat /\
  length (files_in "out/icons" (fs (run0 true).2)) <> 31%nat.
Proof. split; by vm_compute. Qed.

(** C1 (amended): the table is a static, ordered list of exactly 30
    entries, and a successful run writes exactly 32 files to the target
    directory: the 30 sized PNGs named per the table, then
    [mstile-310x150.png], then [favicon.ico].  These 32 paths are
    pairwise distinct and each is a file after the run; the temporary
    file is gone; every other path, the directory itself apart, is as it
    was before the run. *)
Theorem table_30_entries_run_writes_32_files
    tool source_path target_dir w v w' :
  tool_contract tool ->
  is_Some (fs w !! source_path) ->
  generate_favicons tool source_path target_dir w = (Returned v, w') ->
  length targets = 30%nat /\
  output_paths target_dir =
    map (fun t : string * Z * Z => os_path_join target_dir t.1.1) targets ++
    [os_path_join target_dir "mstile-310x150.png";
     os_path_join target_dir "favicon.ico"] /\
  length (output_paths target_dir) = 32%nat /\
  NoDup (output_paths target_dir) /\
  (forall p, p ∈ output_paths target_dir -> is_file (fs w') p) /\
  fs w' !! temp_ico_png target_dir = None /\
  (forall p, p ∉ output_paths target_dir -> p <> temp_ico_png target_dir ->
             p <> target_dir -> fs w' !! p = fs w !! p).
Proof.
  intros contract found returned. split_and!.
  - reflexivity.
  - unfold output_paths, output_names. by rewrite map_app, map_map.
  - unfold output_paths. by rewrite length_map.
  - apply output_paths_NoDup.
  - intros p. by eapply finished_outputs.
  - by eapply finished_temp.
  - intros p. by eapply finished_frame.
Qed.

Lemma table_30_entries_run_writes_32_files_witness :
  tool_contract (reference_tool true) /\
  is_Some (fs world0 !! "public/logo.png") /\
  run0 true = (Returned PyNone, (run0 true).2) /\
  length (output_paths "out/icons") = 32%nat /\
  (forall p, p ∈ output_paths "out/icons" -> is_file (fs (run0 true).2) p).
Proof.
  assert (Hc : tool_contract (reference_tool true))
    by apply reference_tool_contract.
  assert (Hs : is_Some (fs world0 !! "public/logo.png"))
    by (exists (File logo); reflexivity).
  assert (Hr : run0 true = (Returned PyNone, (run0 true).2))
    by (apply returned_with_world; vm_compute; reflexivity).
  destruct (table_30_entries_run_writes_32_files
              (reference_tool true) "public/logo.png" "out/icons"
              world0 PyNone (run0 true).2 Hc Hs Hr)
    as (_ & _ & Hlen & _ & Hfiles & _).
  split_and!; assumption.
Defined.

(** ** Every table entry is resized to its declared size *)

(** C2: after a successful run every entry [(filename, width, height)]
    of the table has its file at [target_dir/filename], of exactly
    [width] x [height] pixels; the run starts by one resize per entry,
    in table order, with destination [target_dir/filename] and the
    entry's height and width, in that order, as the size arguments; the
    destinations are pairwise distinct and no later command of the run
    writes to any of them. *)
Theorem every_entry_resized_to_declared_size
    tool source_path target_dir w v w' :
  tool_contract tool ->
  is_Some (fs w !! source_path) ->
  generate_favicons tool source_path target_dir w = (Returned v, w') ->
  (forall filename width height,
     (filename, width, height) ∈ targets ->
     exists enc, fs w' !! os_path_join target_dir filename
                 = Some (File (Image enc width height))) /\
  NoDup (map (fun t : string * Z * Z => os_path_join target_dir t.1.1) targets) /\
  exists rest,
    calls w' = calls w ++
      map (fun '(filename, width, height) =>
             ["sips"; "-z"; str height; str width; source_path; "--out";
              os_path_join target_dir filename]) targets ++ rest /\
    forall filename width height,
      (filename, width, height) ∈ targets ->
      Forall (fun argv => last argv <> Some (os_path_join target_dir filename)) rest.
Proof.
  intros contract found returned. split_and!.
  - intros filename width height Hin.
    by apply (finished_target _ _ _ contract _ _ _ found returned _ Hin).
  - apply target_paths_NoDup.
  - destruct (finished_shape _ _ _ contract _ _ _ found returned)
      as (wl & e1 & e2 & fi & tail & _ & _ & _ & Hcalls & Htail).
    eexists. split; [exact Hcalls|].
    intros filename width height Hin.
    destruct (target_path_fresh target_dir _ Hin) as (Htile & Hico & Htemp).
    cbn [fst snd] in *.
    assert (forall p q : string, q <> p -> Some p <> Some q) as Hsome
      by (intros p q Hne [= ->]; done).
    repeat apply Forall_cons_2; try (cbn; by apply Hsome).
    destruct Htail as [->|[-> _]]; repeat apply Forall_cons_2;
      try apply Forall_nil_2; cbn; by apply Hsome.
Qed.

Lemma every_entry_resized_to_declared_size_witness :
  tool_contract (reference_tool false) /\
  is_Some (fs world0 !! "public/logo.png") /\
  run0 false = (Returned PyNone, (run0 false).2) /\
  (exists enc, fs (run0 false).2 !! os_path_join "out/icons" "apple-touch-icon-76x76.png"
               = Some (File (Image enc 76 76))).
Proof.
  assert (Hc : tool_contract (reference_tool false))
    by apply reference_tool_contract.
  assert (Hs : is_Some (fs world0 !! "public/logo.png"))
    by (exists (File logo); reflexivity).
  assert (Hr : run0 false = (Returned PyNone, (run0 false).2))
    by (apply returned_with_world; vm_compute; reflexivity).
  destruct (every_entry_resized_to_declared_size
              (reference_tool false) "public/logo.png" "out/icons"
              world0 PyNone (run0 false).2 Hc Hs Hr)
    as (Hfiles & _).
  split_and!; try assumption.
  apply Hfiles. apply (bool_decide_unpack _). vm_compute. exact I.
Defined.

(** ** A missing source *)

(** C3: if the source path does not exist the script reports the error
    on the console and returns at once: the filesystem is unchanged (the
    target directory is not created and no file appears) and no command
    is started. *)
Theorem missing_source_has_no_side_effects tool source_path target_dir w :
  fs w !! source_path = None ->
  exists w',
    generate_favicons tool source_path target_dir w = (Returned PyNone, w') /\
    console w' = console w ++
                 ["Error: Source file " +:+ source_path +:+ " not found."] /\
    fs w' = fs w /\
    fs w' !! target_dir = fs w !! target_dir /\
    calls w' = calls w.
Proof.
  intros Hmissing. eexists. split.
  - by apply generate_favicons_missing.
  - done.
Qed.

Lemma missing_source_has_no_side_effects_witness :
  fs empty_world !! "public/logo.png" = None /\
  exists w',
    generate_favicons (reference_tool true) "public/logo.png" "out/icons"
      empty_world = (Returned PyNone, w') /\
    console w' = ["Error: Source file public/logo.png not found."] /\
    fs w' = ∅ /\ calls w' = [].
Proof.
  assert (Hm : fs empty_world !! "public/logo.png" = None) by reflexivity.
  destruct (missing_source_has_no_side_effects
              (reference_tool true) "public/logo.png" "out/icons" empty_world Hm)
    as (w' & Hrun & Hcon & Hfs & _ & Hcalls).
  split; [exact Hm|]. exists w'. split_and!; assumption.
Defined.

(** C10: with a missing source the script does not raise: it prints one
    console line and returns [None], which is also what every run on an
    existing source returns when it does not raise; neither the returned
    value nor an exception tells the two apart. *)
Theorem missing_source_returns_none_like_success tool source_path target_dir w :
  fs w !! source_path = None ->
  (exists w',
     generate_favicons tool source_path target_dir w = (Returned PyNone, w') /\
     console w' = console w ++ [not_found_line source_path]) /\
  (forall e w', generate_favicons tool source_path target_dir w <> (Raised e, w')) /\
  (forall w1 v1 w1',
     is_Some (fs w1 !! source_path) ->
     generate_favicons tool source_path target_dir w1 = (Returned v1, w1') ->
     v1 = PyNone).
Proof.
  intros Hmissing. rewrite generate_favicons_missing by done. split_and!.
  - by eexists.
  - done.
  - by intros w1 [] w1' _ _.
Qed.

Lemma missing_source_returns_none_like_success_witness :
  fs empty_world !! "public/logo.png" = None /\
  (generate_favicons (reference_tool true) "public/logo.png" "out/icons"
     empty_world).1 = Returned PyNone.
Proof.
  assert (Hm : fs empty_world !! "public/logo.png" = None) by reflexivity.
  destruct (missing_source_returns_none_like_success
              (reference_tool true) "public/logo.png" "out/icons" empty_world Hm)
    as ((w' & Hrun & _) & _ & _).
  split; [exact Hm|by rewrite Hrun].
Defined.

(** ** The non-square tile *)

(** C7, as the specification states it, fails: the tile command is not
    the per-entry command with its two size arguments exchanged. *)
Lemma tile_arguments_are_not_swapped :
  tile_cmd "public/logo.png" "out/icons"
  = ["sips"; "-z"; "150"; "310"; "public/logo.png"; "--out";
     "out/icons/mstile-310x150.png"] /\
  resize_cmd "public/logo.png" "out/icons" ("mstile-310x150.png", 310, 150)
  = ["sips"; "-z"; "150"; "310"; "public/logo.png"; "--out";
     "out/icons/mstile-310x150.png"] /\
  tile_cmd "public/logo.png" "out/icons"
  <> swapped (resize_cmd "public/logo.png" "out/icons"
                ("mstile-310x150.png", 310, 150)).
Proof. split_and!; by vm_compute. Qed.

(** C7 (amended): [mstile-310x150.png] is produced by a single resize
    invocation whose size arguments are passed in the same order as in
    the loop over the table, height first and width second: it is the
    command the loop would issue for the entry
    [("mstile-310x150.png", 310, 150)], and no other command of a
    completed run has that destination. *)
Theorem tile_uses_the_loop_argument_order
    tool source_path target_dir w v w' :
  tool_contract tool ->
  is_Some (fs w !! source_path) ->
  generate_favicons tool source_path target_dir w = (Returned v, w') ->
  tile_cmd source_path target_dir
  = resize_cmd source_path target_dir ("mstile-310x150.png", 310, 150) /\
  exists before after,
    calls w' = calls w ++ before ++ tile_cmd source_path target_dir :: after /\
    Forall (fun argv =>
              last argv <> Some (os_path_join target_dir "mstile-310x150.png"))
           (before ++ after).
Proof.
  intros contract found returned. split; [reflexivity|].
  destruct (finished_shape _ _ _ contract _ _ _ found returned)
    as (wl & e1 & e2 & fi & tail & _ & _ & _ & Hcalls & Htail).
  eexists _, _. split; [exact Hcalls|].
  assert (forall p q : string, p <> q -> Some p <> Some q) as Hsome
    by (intros p q Hne [= ->]; done).
  assert (Hico : favicon_ico target_dir <> os_path_join target_dir "mstile-310x150.png")
    by (apply written_join_ne; auto using ico_written, tile_written).
  assert (Htemp : temp_ico_png target_dir <> os_path_join target_dir "mstile-310x150.png")
    by (apply written_join_ne; auto using temp_written, tile_written).
  apply Forall_app. split.
  - apply Forall_forall. intros argv Hin.
    apply list_elem_of_In, in_map_iff in Hin as ([[fn wd] h] & <- & Hin).
    apply list_elem_of_In, (target_path_fresh target_dir) in Hin as (Hne & _).
    cbn. by apply Hsome.
  - destruct Htail as [->|[-> _]]; repeat apply Forall_cons_2;
      try apply Forall_nil_2; cbn; by apply Hsome.
Qed.

Lemma tile_uses_the_loop_argument_order_witness :
  tool_contract (reference_tool true) /\
  is_Some (fs world0 !! "public/logo.png") /\
  run0 true = (Returned PyNone, (run0 true).2) /\
  tile_cmd "public/logo.png" "out/icons"
  = resize_cmd "public/logo.png" "out/icons" ("mstile-310x150.png", 310, 150).
Proof.
  assert (Hc : tool_contract (reference_tool true))
    by apply reference_tool_contract.
  assert (Hs : is_Some (fs world0 !! "public/logo.png"))
    by (exists (File logo); reflexivity).
  assert (Hr : run0 true = (Returned PyNone, (run0 true).2))
    by (apply returned_with_world; vm_compute; reflexivity).
  destruct (tile_uses_the_loop_argument_order
              (reference_tool true) "public/logo.png" "out/icons"
              world0 PyNone (run0 true).2 Hc Hs Hr)
    as (Horder & _).
  split_and!; assumption.
Defined.

(** ** A failing resize *)

Lemma for_each_app_run {A} (l1 l2 : list A) (body : A -> M unit) w w1 :
  for_each l1 body w = (Returned tt, w1) ->
  for_each (l1 ++ l2) body w = for_each l2 body w1.
Proof.
  revert w. induction l1 as [|x l1 IH]; intros w.
  - by intros [= <-].
  - cbn [for_each app]. rewrite bind_returned.
    intros ([] & w0 & Hx & Hl1). rewrite (bind_run _ _ _ _ _ Hx). by apply IH.
Qed.

Lemma resize_target_raised tool source_path target_dir t w rc fs' :
  tool (World (fs w) (console w ++ [progress_line t]) (calls w))
       (resize_cmd source_path target_dir t) = Exited rc fs' ->
  rc <> 0 ->
  resize_target tool source_path target_dir t w
  = (Raised (CalledProcessError rc (resize_cmd source_path target_dir t)),
     World fs' (console w ++ [progress_line t])
           (calls w ++ [resize_cmd source_path target_dir t])).
Proof.
  intros Htool Hrc. unfold resize_target.
  rewrite (bind_run _ _ _ _ _ (print_run _ _)).
  apply run_raised. right. exists rc, fs'. done.
Qed.

(** C4: whichever entry of the table it is, if its resize exits with a
    non-zero status after the entries before it went through, the
    [CalledProcessError] of that command leaves [generate_favicons]
    uncaught and the run stops there: the commands started are the
    resizes of the earlier entries and the failing one, once; no later
    entry, no tile command and no ICO step follows. *)
Theorem failed_resize_aborts_the_run
    tool source_path target_dir w before t after w1 rc fs' :
  is_Some (fs w !! source_path) ->
  targets = before ++ t :: after ->
  (os_makedirs_exist_ok target_dir ;;
   for_each before (resize_target tool source_path target_dir)) w
  = (Returned tt, w1) ->
  tool (World (fs w1) (console w1 ++ [progress_line t]) (calls w1))
       (resize_cmd source_path target_dir t) = Exited rc fs' ->
  rc <> 0 ->
  generate_favicons tool source_path target_dir w
  = (Raised (CalledProcessError rc (resize_cmd source_path target_dir t)),
     World fs' (console w1 ++ [progress_line t])
           (calls w ++ map (resize_cmd source_path target_dir) before
                   ++ [resize_cmd source_path target_dir t])).
Proof.
  intros Hsrc Htargets Hbefore Htool Hrc.
  apply bind_returned in Hbefore as ([] & w0 & Hmk & Hloop).
  assert (Hcalls : calls w1 = calls w ++ map (resize_cmd source_path target_dir) before).
  { apply for_each_returned in Hloop as [-> _].
    unfold os_makedirs_exist_ok in Hmk. case_bool_decide; [done|].
    destruct (fs w !! target_dir) as [[|?]|]; by simplify_eq. }
  rewrite generate_favicons_found by done. unfold generate_existing.
  rewrite (bind_run _ _ _ _ _ Hmk), Htargets.
  apply bind_abort. rewrite (for_each_app_run _ _ _ _ _ Hloop).
  cbn [for_each]. apply bind_abort.
  rewrite (resize_target_raised _ _ _ _ _ _ _ Htool Hrc).
  by rewrite Hcalls, <- app_assoc.
Qed.

Lemma failed_resize_aborts_the_run_witness :
  is_Some (fs world0 !! "public/logo.png") /\
  targets = take 3 targets ++ ("android-chrome-36x36.png", 36, 36) :: drop 4 targets /\
  run_to_36 = (Returned tt, run_to_36.2) /\
  (generate_favicons sips_fails_at_36 "public/logo.png" "out/icons" world0).1
  = Raised (CalledProcessError 1
              ["sips"; "-z"; "36"; "36"; "public/logo.png"; "--out";
               "out/icons/android-chrome-36x36.png"]) /\
  length (calls (generate_favicons sips_fails_at_36 "public/logo.png" "out/icons"
                   world0).2) = 4%nat.
Proof.
  assert (Hs : is_Some (fs world0 !! "public/logo.png"))
    by (exists (File logo); reflexivity).
  assert (Ht : targets = take 3 targets
                         ++ ("android-chrome-36x36.png", 36, 36) :: drop 4 targets)
    by reflexivity.
  assert (Hb : run_to_36 = (Returned tt, run_to_36.2))
    by (apply returned_with_world; vm_compute; reflexivity).
  assert (Hf : sips_fails_at_36
                 (World (fs run_to_36.2)
                    (console run_to_36.2
                       ++ [progress_line ("android-chrome-36x36.png", 36, 36)])
                    (calls run_to_36.2))
                 (resize_cmd "public/logo.png" "out/icons"
                    ("android-chrome-36x36.png", 36, 36))
               = Exited 1 (fs run_to_36.2))
    by (vm_compute; reflexivity).
  assert (Hrc : 1 <> 0) by lia.
  pose proof (failed_resize_aborts_the_run
                sips_fails_at_36 "public/logo.png" "out/icons" world0
                (take 3 targets) ("android-chrome-36x36.png", 36, 36)
                (drop 4 targets) run_to_36.2 1 (fs run_to_36.2)
                Hs Ht Hb Hf Hrc) as Hrun.
  split_and!; try assumption.
  - rewrite Hrun. reflexivity.
  - rewrite Hrun. vm_compute. reflexivity.
Defined.

(** ** The ICO step *)




(** ** The temporary file *)

(** C6, as the specification states it, fails: there is no guaranteed
    cleanup.  When the conversion fails and the fallback copy fails too,
    the [CalledProcessError] of [cp] ends the run before line 80 and the
    temporary file is still there. *)
Lemma temp_file_left_when_fallback_fails :
  (generate_favicons no_ico_no_cp "public/logo.png" "out/icons" world0).1
  = Raised (CalledProcessError 1
              ["cp"; "out/icons/favicon_temp.png"; "out/icons/favicon.ico"]) /\
  fs (generate_favicons no_ico_no_cp "public/logo.png" "out/icons" world0).2
     !! "out/icons/favicon_temp.png"
  = Some (File (Image PNG 32 32)).
Proof. split; by vm_compute. Qed.

(** C6 (amended): the temporary intermediate file is removed on both the
    conversion-success path and the conversion-fallback path: after
    every run on an existing source that returns without raising,
    whichever of the two ICO branches was taken, the temporary file does
    not exist. *)
Theorem temp_file_removed_when_run_returns
    tool source_path target_dir w v w' :
  is_Some (fs w !! source_path) ->
  generate_favicons tool source_path target_dir w = (Returned v, w') ->
  fs w' !! temp_ico_png target_dir = None /\
  exists w1 w2,
    before_convert tool source_path target_dir w = (Returned tt, w1) /\
    convert_or_fallback tool target_dir w1 = (Returned tt, w2) /\
    (calls w2 = calls w1 ++ [convert_cmd target_dir] \/
     calls w2 = calls w1 ++ [convert_cmd target_dir; cp_cmd target_dir]) /\
    w' = World (delete (temp_ico_png target_dir) (fs w2)) (console w2) (calls w2).
Proof.
  intros Hsrc Hrun.
  apply returned_phases in Hrun as (w1 & w2 & Hpre & Hico & Hrm); [|done].
  unfold os_remove in Hrm.
  destruct (fs w2 !! temp_ico_png target_dir) as [[|f]|] eqn:Htemp; simplify_eq.
  split; [apply lookup_delete_eq|].
  exists w1, w2. split_and!; try done.
  apply convert_or_fallback_returned in Hico
    as [(fs1 & _ & ->)|(rc & fs1 & fs2 & _ & _ & _ & ->)]; cbn; auto.
Qed.

Lemma temp_file_removed_when_run_returns_witness :
  is_Some (fs world0 !! "public/logo.png") /\
  run0 false = (Returned PyNone, (run0 false).2) /\
  fs (run0 false).2 !! temp_ico_png "out/icons" = None.
Proof.
  assert (Hs : is_Some (fs world0 !! "public/logo.png"))
    by (exists (File logo); reflexivity).
  assert (Hr : run0 false = (Returned PyNone, (run0 false).2))
    by (apply returned_with_world; vm_compute; reflexivity).
  destruct (temp_file_removed_when_run_returns
              (reference_tool false) "public/logo.png" "out/icons"
              world0 PyNone (run0 false).2 Hs Hr) as (Hgone & _).
  split_and!; assumption.
Defined.

(** ** [favicon.ico] *)

(** C8, as the specification states it, fails: a run on a missing source
    completes without raising and leaves no [favicon.ico]. *)
Lemma no_favicon_ico_after_missing_source_run :
  (generate_favicons (reference_tool true) "public/logo.png" "out/icons"
     empty_world).1 = Returned PyNone /\
  fs (generate_favicons (reference_tool true) "public/logo.png" "out/icons"
        empty_world).2 !! "out/icons/favicon.ico" = None.
Proof. split; by vm_compute. Qed.

(** C8 (amended): after every run of [generate_favicons] on an existing
    source that completes without propagating an error, the file
    [target_dir/favicon.ico] exists, whether the tool's own ICO
    conversion succeeded or the fallback copy was taken. *)
Theorem favicon_ico_exists_after_run tool source_path target_dir w v w' :
  tool_contract tool ->
  is_Some (fs w !! source_path) ->
  generate_favicons tool source_path target_dir w = (Returned v, w') ->
  is_file (fs w') (os_path_join target_dir "favicon.ico") /\
  exists rest,
    calls w' = calls w ++ map (resize_cmd source_path target_dir) targets ++
               [tile_cmd source_path target_dir; temp_cmd source_path target_dir;
                convert_cmd target_dir] ++ rest /\
    (rest = [] \/ rest = [cp_cmd target_dir]).
Proof.
  intros contract found returned. split.
  - by eapply finished_ico.
  - destruct (finished_shape _ _ _ contract _ _ _ found returned)
      as (wl & e1 & e2 & fi & tail & _ & _ & _ & Hcalls & Htail).
    exists tail. split; [done|]. by destruct Htail as [->|[-> _]]; auto.
Qed.

Lemma favicon_ico_exists_after_run_witness :
  tool_contract (reference_tool false) /\
  is_Some (fs world0 !! "public/logo.png") /\
  run0 false = (Returned PyNone, (run0 false).2) /\
  is_file (fs (run0 false).2) (os_path_join "out/icons" "favicon.ico").
Proof.
  assert (Hc : tool_contract (reference_tool false))
    by apply reference_tool_contract.
  assert (Hs : is_Some (fs world0 !! "public/logo.png"))
    by (exists (File logo); reflexivity).
  assert (Hr : run0 false = (Returned PyNone, (run0 false).2))
    by (apply returned_with_world; vm_compute; reflexivity).
  destruct (favicon_ico_exists_after_run
              (reference_tool false) "public/logo.png" "out/icons"
              world0 PyNone (run0 false).2 Hc Hs Hr) as (Hico & _).
  split_and!; assumption.
Defined.

(** ** Running the script again *)

Section Succeeds.
Variable tool : world -> list string -> completion.
Variables source_path target_dir : string.
Hypothesis contract : tool_contract tool.
Hypothesis reliable : tool_reliable tool.

Lemma resize_succeeds hs ws h wd dest w :
  parse_pixels hs = Some h -> parse_pixels ws = Some wd ->
  is_file (fs w) source_path ->
  exists enc,
    subprocess_run_check tool
      ["sips"; "-z"; hs; ws; source_path; "--out"; dest] w
    = (Returned tt,
       World (<[dest := File (Image enc wd h)]> (fs w)) (console w)
             (calls w ++ [["sips"; "-z"; hs; ws; source_path; "--out"; dest]])).
Proof.
  intros Hh Hw [f Hsrc].
  destruct (resize_runs _ reliable w hs ws source_path dest f Hsrc) as [fs' Hrun];
    [by eexists..|].
  destruct (resize_done _ contract _ _ _ _ _ _ _ _ Hrun Hh Hw) as [enc ->].
  exists enc. apply run_returned. eauto.
Qed.

Lemma is_file_insert m p q g :
  is_file m p -> is_file (<[q := File g]> m) p.
Proof.
  intros [f Hp]. unfold is_file. rewrite lookup_insert.
  case_decide; eauto.
Qed.

Lemma for_each_succeeds l w :
  Forall pixels_ok l ->
  is_file (fs w) source_path ->
  exists w', for_each l (resize_target tool source_path target_dir) w
             = (Returned tt, w').
Proof.
  revert w. induction l as [|t l IH]; intros w Hok Hsrc; [by eexists|].
  apply Forall_cons in Hok as [[Hw Hh] Hok].
  destruct t as [[fn wd] h]. cbn [fst snd] in *.
  destruct (resize_succeeds (str h) (str wd) h wd (os_path_join target_dir fn)
              (World (fs w) (console w ++ [progress_line (fn, wd, h)]) (calls w))
              Hh Hw Hsrc) as [enc Hrun].
  destruct (IH (World (<[os_path_join target_dir fn := File (Image enc wd h)]> (fs w))
                  (console w ++ [progress_line (fn, wd, h)])
                  (calls w ++ [resize_cmd source_path target_dir (fn, wd, h)])))
    as [w' Hw']; [done|by apply is_file_insert|].
  assert (Hstep : resize_target tool source_path target_dir (fn, wd, h) w
                  = (Returned tt,
                     World (<[os_path_join target_dir fn := File (Image enc wd h)]> (fs w))
                       (console w ++ [progress_line (fn, wd, h)])
                       (calls w ++ [resize_cmd source_path target_dir (fn, wd, h)]))).
  { unfold resize_target. rewrite (bind_run _ _ _ _ _ (print_run _ _)).
    exact Hrun. }
  exists w'. cbn [for_each]. by rewrite (bind_run _ _ _ _ _ Hstep).
Qed.

Lemma before_convert_succeeds w :
  is_file (fs w) source_path ->
  target_dir <> "" ->
  (forall g, fs w !! target_dir <> Some (File g)) ->
  exists w', before_convert tool source_path target_dir w = (Returned tt, w') /\
             is_file (fs w') (temp_ico_png target_dir).
Proof.
  intros Hsrc Hdir Hnofile.
  assert (exists w0, os_makedirs_exist_ok target_dir w = (Returned tt, w0) /\
                     is_file (fs w0) source_path) as (w0 & Hmk & Hsrc0).
  { unfold os_makedirs_exist_ok. rewrite bool_decide_eq_false_2 by done.
    destruct (fs w !! target_dir) as [[|g]|] eqn:Hd.
    - by exists w.
    - by destruct (Hnofile g).
    - eexists. split; [done|]. cbn [fs]. destruct Hsrc as [f Hf].
      exists f. rewrite lookup_insert_ne; [done|]. intros <-. congruence. }
  destruct (for_each_succeeds targets w0 targets_pixels_ok Hsrc0) as [wl Hloop].
  assert (Hsrcl : is_file (fs wl) source_path)
    by (by eapply for_each_keeps_files; eauto using targets_pixels_ok).
  destruct (resize_succeeds "150" "310" 150 310
              (os_path_join target_dir "mstile-310x150.png")
              (World (fs wl) (console wl ++ ["Generating mstile-310x150.png..."])
                     (calls wl)) eq_refl eq_refl Hsrcl) as [e1 Htile].
  cbn [fs console calls] in Htile.
  match type of Htile with _ = (_, ?x) => set (w2 := x) in * end.
  assert (Hsrc2 : is_file (fs w2) source_path) by by apply is_file_insert.
  destruct (resize_succeeds "32" "32" 32 32 (temp_ico_png target_dir)
              (World (fs w2) (console w2 ++ ["Generating favicon.ico..."])
                     (calls w2)) eq_refl eq_refl Hsrc2) as [e2 Htemp].
  cbn [fs console calls] in Htemp.
  eexists. split.
  - unfold before_convert.
    rewrite (bind_run _ _ _ _ _ Hmk), (bind_run _ _ _ _ _ Hloop).
    rewrite (bind_run _ _ _ _ _ (print_run _ _)).
    rewrite (bind_run _ _ _ _ _ Htile).
    rewrite (bind_run _ _ _ _ _ (print_run _ _)).
    exact Htemp.
  - cbn [fs]. eexists. apply lookup_insert_eq.
Qed.

Lemma convert_or_fallback_succeeds w :
  is_file (fs w) (temp_ico_png target_dir) ->
  exists w', convert_or_fallback tool target_dir w = (Returned tt, w') /\
             is_file (fs w') (temp_ico_png target_dir).
Proof.
  intros Htemp.
  assert (Hne : temp_ico_png target_dir <> favicon_ico target_dir)
    by (apply written_join_ne; auto using temp_written, ico_written).
  destruct (convert_runs _ reliable w "ico" (temp_ico_png target_dir)
              (favicon_ico target_dir)) as (rc & fs1 & Hconv).
  unfold convert_or_fallback, try_except, subprocess_run_check at 1.
  fold (convert_cmd target_dir) in Hconv. rewrite Hconv.
  case_bool_decide as Hrc.
  - subst rc. eexists. split; [done|]. cbn [fs].
    destruct (convert_done _ contract _ _ _ _ _ Hconv) as [fi ->].
    by apply is_file_insert.
  - rewrite (bind_run _ _ _ _ _ (print_run _ _)).
    assert (Htemp1 : is_file fs1 (temp_ico_png target_dir)).
    { destruct Htemp as [f Hf]. exists f.
      by rewrite (convert_failed _ contract _ _ _ _ _ _ _ Hconv Hrc Hne). }
    destruct Htemp1 as [f Hf].
    destruct (cp_runs _ reliable
                (World fs1 (console w ++ [fallback_notice])
                   (calls w ++ [convert_cmd target_dir]))
                (temp_ico_png target_dir) (favicon_ico target_dir) f Hf)
      as [fs2 Hcp].
    destruct (cp_done _ contract _ _ _ _ Hcp) as (f' & _ & ->).
    eexists. split.
    + apply run_returned. eexists. split; [exact Hcp|done].
    + cbn [fs]. apply is_file_insert. by exists f.
Qed.

Lemma generate_favicons_succeeds w :
  is_file (fs w) source_path ->
  target_dir <> "" ->
  (forall g, fs w !! target_dir <> Some (File g)) ->
  exists w', generate_favicons tool source_path target_dir w
             = (Returned PyNone, w').
Proof.
  intros Hsrc Hdir Hnofile.
  destruct (before_convert_succeeds w Hsrc Hdir Hnofile) as (w1 & Hpre & Htemp).
  destruct (convert_or_fallback_succeeds w1 Htemp) as (w2 & Hico & [f Hf]).
  eexists. eapply phases_returned; eauto.
  - destruct Hsrc as [g Hg]. by exists (File g).
  - unfold os_remove. by rewrite Hf.
Qed.
End Succeeds.

(** A first run removes its own source when that source is the path it
    uses for the temporary file; the second run then stops at the guard
    of line 5. *)
Lemma second_run_skipped_when_source_is_the_temp_file :
  first_alias_run.1 = Returned PyNone /\
  length (calls first_alias_run.2) = 33%nat /\
  second_alias_run.1 = Returned PyNone /\
  calls second_alias_run.2 = calls first_alias_run.2 /\
  fs second_alias_run.2 = fs first_alias_run.2 /\
  last (console second_alias_run.2)
  = Some "Error: Source file out/icons/favicon_temp.png not found.".
Proof.
  assert (Hgone : fs first_alias_run.2 !! "out/icons/favicon_temp.png" = None)
    by (vm_compute; reflexivity).
  split; [vm_compute; reflexivity|].
  split; [vm_compute; reflexivity|].
  unfold second_alias_run. revert Hgone.
  generalize first_alias_run.2. intros w1 Hgone.
  rewrite (generate_favicons_missing _ _ _ _ Hgone).
  cbn [fst snd fs calls console]. rewrite last_snoc.
  by split_and!.
Qed.

Lemma never_overwrites_contract tool :
  tool_contract tool -> tool_contract (never_overwrites tool).
Proof.
  intros [Hr Hc Hf Hcp]. split; unfold never_overwrites.
  - intros w hs ws h wd src dst fs'. cbn [last].
    case_bool_decide; [done|]. apply Hr.
  - intros w fmt src dst fs'. cbn [last].
    case_bool_decide; [done|]. apply Hc.
  - intros w fmt src dst rc fs' p. cbn [last]. case_bool_decide.
    + by intros [= <- <-].
    + apply Hf.
  - intros w src dst fs'. cbn [last].
    case_bool_decide; [done|]. apply Hcp.
Qed.

(** C9, as the specification states it, fails, in two ways.  When
    [source_path] is [target_dir/favicon_temp.png] the first run
    succeeds and removes its own source at line 80; the second run,
    with the same arguments, finds no source, prints the error, starts
    no command and overwrites nothing.  And the script leaves
    overwriting to the tools: with a tool that keeps the contract but
    refuses a destination that exists, the first run succeeds and the
    second is ended by the [CalledProcessError] of its first resize. *)
Lemma second_run_can_be_skipped_or_refused :
  (first_alias_run.1 = Returned PyNone /\
   second_alias_run.1 = Returned PyNone /\
   calls second_alias_run.2 = calls first_alias_run.2 /\
   last (console second_alias_run.2)
   = Some "Error: Source file out/icons/favicon_temp.png not found.") /\
  (tool_contract careful_tool /\
   first_careful_run.1 = Returned PyNone /\
   second_careful_run.1
   = Raised (CalledProcessError 1
               ["sips"; "-z"; "144"; "144"; "public/logo.png"; "--out";
                "out/icons/android-chrome-144x144.png"])).
Proof.
  split.
  - destruct second_run_skipped_when_source_is_the_temp_file
      as (H1 & _ & H2 & H3 & _ & H4).
    by split_and!.
  - split; [apply never_overwrites_contract, reference_tool_contract|].
    split; vm_compute; reflexivity.
Qed.

(** C9 (amended): running [generate_favicons] twice in succession with
    the same arguments succeeds and overwrites all outputs without
    error, provided that the external tools succeed on every existing
    input file (also when their destination is already there) and that
    the source file is still in place after the first run: the
    directory creation of the second run finds the directory and
    changes nothing, the second run returns, it issues again the
    command of every output, and every output file, present after the
    first run, is present after the second. *)
Theorem second_run_overwrites_all_outputs
    tool source_path target_dir w v w1 :
  tool_contract tool ->
  tool_reliable tool ->
  generate_favicons tool source_path target_dir w = (Returned v, w1) ->
  is_file (fs w1) source_path ->
  fs w1 !! target_dir = Some Dir /\
  os_makedirs_exist_ok target_dir w1 = (Returned tt, w1) /\
  exists w2,
    generate_favicons tool source_path target_dir w1 = (Returned PyNone, w2) /\
    (exists rest,
       calls w2 = calls w1 ++ map (resize_cmd source_path target_dir) targets ++
                  [tile_cmd source_path target_dir; temp_cmd source_path target_dir;
                   convert_cmd target_dir] ++ rest /\
       (rest = [] \/ rest = [cp_cmd target_dir])) /\
    (forall p, p ∈ output_paths target_dir ->
               is_file (fs w1) p /\ is_file (fs w2) p).
Proof.
  intros contract reliable Hrun1 Hsrc1.
  assert (found : is_Some (fs w !! source_path)).
  { destruct (fs w !! source_path) as [n|] eqn:Hsrc; [by eexists|].
    rewrite (generate_favicons_missing _ _ _ _ Hsrc) in Hrun1.
    apply (f_equal (fun r : outcome value * world => fs r.2)) in Hrun1.
    cbn [fs snd] in Hrun1. destruct Hsrc1 as [g Hg]. congruence. }
  pose proof (finished_dir _ _ _ contract _ _ _ found Hrun1) as Hdir1.
  destruct (finished_shape _ _ _ contract _ _ _ found Hrun1)
    as (_ & _ & _ & _ & _ & Hdir & _).
  assert (found1 : is_Some (fs w1 !! source_path))
    by (destruct Hsrc1 as [g Hg]; by exists (File g)).
  split; [done|]. split.
  { unfold os_makedirs_exist_ok.
    by rewrite bool_decide_eq_false_2, Hdir1 by done. }
  destruct (generate_favicons_succeeds _ _ _ contract reliable w1 Hsrc1 Hdir)
    as [w2 Hrun2]; [by rewrite Hdir1|].
  exists w2. split_and!; [done| |].
  - destruct (finished_shape _ _ _ contract _ _ _ found1 Hrun2)
      as (wl & e1 & e2 & fi & tail & _ & _ & _ & Hcalls & Htail).
    exists tail. split; [done|]. by destruct Htail as [->|[-> _]]; auto.
  - intros p Hp. split.
    + exact (finished_outputs _ _ _ contract _ _ _ found Hrun1 p Hp).
    + exact (finished_outputs _ _ _ contract _ _ _ found1 Hrun2 p Hp).
Qed.

Lemma second_run_overwrites_all_outputs_witness :
  tool_contract (reference_tool true) /\
  tool_reliable (reference_tool true) /\
  run0 true = (Returned PyNone, (run0 true).2) /\
  is_file (fs (run0 true).2) "public/logo.png" /\
  exists w2,
    generate_favicons (reference_tool true) "public/logo.png" "out/icons"
      (run0 true).2 = (Returned PyNone, w2) /\
    forall p, p ∈ output_paths "out/icons" -> is_file (fs w2) p.
Proof.
  assert (Hc : tool_contract (reference_tool true))
    by apply reference_tool_contract.
  assert (Hrel : tool_reliable (reference_tool true))
    by apply reference_tool_reliable.
  assert (Hr : run0 true = (Returned PyNone, (run0 true).2))
    by (apply returned_with_world; vm_compute; reflexivity).
  assert (Hs : is_file (fs (run0 true).2) "public/logo.png")
    by (exists logo; vm_compute; reflexivity).
  destruct (second_run_overwrites_all_outputs
              (reference_tool true) "public/logo.png" "out/icons"
              world0 PyNone (run0 true).2 Hc Hrel Hr Hs)
    as (_ & _ & w2 & Hrun2 & _ & Hfiles).
  repeat (split; [assumption|]).
  exists w2. split; [exact Hrun2|]. intros p Hp. exact (proj2 (Hfiles p Hp)).
Defined.

(** * Further properties of the script *)

(** ** Inversion of the phases *)

Lemma os_remove_returned p w w' :
  os_remove p w = (Returned tt, w') ->
  exists f, fs w !! p = Some (File f) /\
            w' = World (delete p (fs w)) (console w) (calls w).
Proof.
  unfold os_remove. destruct (fs w !! p) as [[|f]|]; [done| |done].
  intros [= <-]. by exists f.
Qed.

Lemma before_convert_returned tool source_path target_dir w w1 :
  before_convert tool source_path target_dir w = (Returned tt, w1) ->
  exists w0 wl fs2,
    os_makedirs_exist_ok target_dir w = (Returned tt, w0) /\
    for_each targets (resize_target tool source_path target_dir) w0
    = (Returned tt, wl) /\
    tool (World (fs wl) (console wl ++ ["Generating mstile-310x150.png..."])
                (calls wl))
         (tile_cmd source_path target_dir) = Exited 0 fs2 /\
    tool (World fs2
                (console wl ++ ["Generating mstile-310x150.png..."]
                            ++ ["Generating favicon.ico..."])
                (calls wl ++ [tile_cmd source_path target_dir]))
         (temp_cmd source_path target_dir) = Exited 0 (fs w1) /\
    console w1 = console w ++ map progress_line targets ++
                 ["Generating mstile-310x150.png..."; "Generating favicon.ico..."] /\
    calls w1 = calls w ++ map (resize_cmd source_path target_dir) targets ++
               [tile_cmd source_path target_dir; temp_cmd source_path target_dir].
Proof.
  unfold before_convert.
  rewrite bind_returned. intros ([] & w0 & Hmk & H).
  apply bind_returned in H as ([] & wl & Hloop & H).
  apply bind_returned in H as ([] & wa & Hp1 & H).
  rewrite print_run in Hp1. simplify_eq.
  apply bind_returned in H as ([] & wb & Htile & H).
  apply run_returned in Htile as (fs2 & Htile & ->).
  apply bind_returned in H as ([] & wc & Hp2 & H).
  rewrite print_run in Hp2. simplify_eq.
  apply run_returned in H as (fs4 & Htemp & ->).
  cbn [fs console calls] in *.
  exists w0, wl, fs2. split_and!; try done.
  - by rewrite <- app_assoc in Htemp.
  - apply for_each_returned in Hloop as [_ ->].
    apply os_makedirs_returned in Hmk as (_ & _ & -> & _).
    by rewrite <- !app_assoc.
  - apply for_each_returned in Hloop as [-> _].
    apply os_makedirs_returned in Hmk as (_ & _ & _ & ->).
    by rewrite <- !app_assoc.
Qed.

(** ** What a completed run prints *)

(** X1: a run on an existing source that returns has printed, in order,
    one progress line per table entry, the tile line and the
    [favicon.ico] line, and after them the fallback notice exactly when
    the last command of the run is the fallback [cp]. *)
Theorem completed_run_console tool source_path target_dir w v w' :
  is_Some (fs w !! source_path) ->
  generate_favicons tool source_path target_dir w = (Returned v, w') ->
  console w' =
    console w ++
    map (fun '(filename, width, height) =>
           "Generating " +:+ filename +:+ " (" +:+ str width +:+ "x"
                         +:+ str height +:+ ")...") targets ++
    ["Generating mstile-310x150.png..."; "Generating favicon.ico..."] ++
    (if bool_decide (last (calls w') = Some ["cp"; temp_ico_png target_dir;
                                            favicon_ico target_dir])
     then ["sips ico export failed, falling back to PNG-as-ICO..."]
     else []).
Proof.
  intros Hsrc Hrun.
  apply returned_phases in Hrun as (w1 & w2 & Hpre & Hico & Hrm); [|done].
  apply before_convert_returned in Hpre
    as (_ & _ & _ & _ & _ & _ & _ & Hcon & _).
  apply os_remove_returned in Hrm as (f & _ & ->). cbn [console calls].
  apply convert_or_fallback_returned in Hico
    as [(fs1 & _ & ->)|(rc & fs1 & fs2 & _ & _ & _ & ->)]; cbn [console calls].
  - rewrite last_snoc, bool_decide_eq_false_2 by done.
    by rewrite Hcon, app_nil_r.
  - rewrite (last_app_cons _ [_]), bool_decide_eq_true_2 by done.
    rewrite Hcon, <- !app_assoc. done.
Qed.

Lemma completed_run_console_witness :
  is_Some (fs world0 !! "public/logo.png") /\
  run0 false = (Returned PyNone, (run0 false).2) /\
  length (console (run0 false).2) = 33%nat /\
  last (console (run0 false).2)
  = Some "sips ico export failed, falling back to PNG-as-ICO...".
Proof.
  assert (Hs : is_Some (fs world0 !! "public/logo.png"))
    by (exists (File logo); reflexivity).
  assert (Hr : run0 false = (Returned PyNone, (run0 false).2))
    by (apply returned_with_world; vm_compute; reflexivity).
  pose proof (completed_run_console
                (reference_tool false) "public/logo.png" "out/icons"
                world0 PyNone (run0 false).2 Hs Hr) as Hcon.
  assert (Hlast : last (calls (run0 false).2)
                  = Some ["cp"; temp_ico_png "out/icons"; favicon_ico "out/icons"])
    by (vm_compute; reflexivity).
  rewrite bool_decide_eq_true_2 in Hcon by exact Hlast.
  split; [exact Hs|]. split; [exact Hr|].
  rewrite Hcon. split; [vm_compute; reflexivity|].
  rewrite !app_assoc. apply last_snoc.
Defined.

(** ** The sizes of the two special outputs *)

(** X2: after a completed run [mstile-310x150.png] is, by the contract
    of [sips -z 150 310], an image 310 pixels wide and 150 pixels high:
    the source is stretched to the tile's shape, it is not kept at
    150 x 150 as the comment of lines 56-57 announces. *)
Theorem tile_is_310_wide_150_high tool source_path target_dir w v w' :
  tool_contract tool ->
  is_Some (fs w !! source_path) ->
  generate_favicons tool source_path target_dir w = (Returned v, w') ->
  exists enc,
    fs w' !! os_path_join target_dir "mstile-310x150.png"
    = Some (File (Image enc 310 150)).
Proof. intros contract found returned. by eapply finished_tile. Qed.

Lemma tile_is_310_wide_150_high_witness :
  tool_contract (reference_tool true) /\
  is_Some (fs world0 !! "public/logo.png") /\
  run0 true = (Returned PyNone, (run0 true).2) /\
  exists enc,
    fs (run0 true).2 !! os_path_join "out/icons" "mstile-310x150.png"
    = Some (File (Image enc 310 150)).
Proof.
  assert (Hc : tool_contract (reference_tool true))
    by apply reference_tool_contract.
  assert (Hs : is_Some (fs world0 !! "public/logo.png"))
    by (exists (File logo); reflexivity).
  assert (Hr : run0 true = (Returned PyNone, (run0 true).2))
    by (apply returned_with_world; vm_compute; reflexivity).
  pose proof (tile_is_310_wide_150_high
                (reference_tool true) "public/logo.png" "out/icons"
                world0 PyNone (run0 true).2 Hc Hs Hr) as Htile.
  repeat (split; [assumption|]). exact Htile.
Defined.

(** X3: when a completed run ended with the fallback copy,
    [favicon.ico] is a 32 x 32 image (the intermediate that
    [sips -z 32 32] wrote), not an ICO container produced by the
    conversion. *)
Theorem fallback_favicon_is_the_32_pixel_intermediate
    tool source_path target_dir w v w' :
  tool_contract tool ->
  is_Some (fs w !! source_path) ->
  generate_favicons tool source_path target_dir w = (Returned v, w') ->
  last (calls w') = Some ["cp"; temp_ico_png target_dir; favicon_ico target_dir] ->
  exists enc,
    fs w' !! os_path_join target_dir "favicon.ico"
    = Some (File (Image enc 32 32)).
Proof.
  intros contract found returned Hlast.
  destruct (finished_shape _ _ _ contract _ _ _ found returned)
    as (wl & e1 & e2 & fi & tail & _ & _ & Hfs & Hcalls & Htail).
  destruct Htail as [->|[-> ->]].
  - rewrite Hcalls, !app_assoc, app_nil_r in Hlast.
    by rewrite (last_app_cons _ [_; _]) in Hlast.
  - exists e2. rewrite Hfs.
    rewrite lookup_delete_ne
      by (apply written_join_ne; auto using temp_written, ico_written).
    apply lookup_insert_eq.
Qed.

Lemma fallback_favicon_is_the_32_pixel_intermediate_witness :
  tool_contract (reference_tool false) /\
  is_Some (fs world0 !! "public/logo.png") /\
  run0 false = (Returned PyNone, (run0 false).2) /\
  last (calls (run0 false).2)
  = Some ["cp"; temp_ico_png "out/icons"; favicon_ico "out/icons"] /\
  exists enc,
    fs (run0 false).2 !! os_path_join "out/icons" "favicon.ico"
    = Some (File (Image enc 32 32)).
Proof.
  assert (Hc : tool_contract (reference_tool false))
    by apply reference_tool_contract.
  assert (Hs : is_Some (fs world0 !! "public/logo.png"))
    by (exists (File logo); reflexivity).
  assert (Hr : run0 false = (Returned PyNone, (run0 false).2))
    by (apply returned_with_world; vm_compute; reflexivity).
  assert (Hlast : last (calls (run0 false).2)
                  = Some ["cp"; temp_ico_png "out/icons"; favicon_ico "out/icons"])
    by (vm_compute; reflexivity).
  pose proof (fallback_favicon_is_the_32_pixel_intermediate
                (reference_tool false) "public/logo.png" "out/icons"
                world0 PyNone (run0 false).2 Hc Hs Hr Hlast) as Hico.
  repeat (split; [assumption|]). exact Hico.
Defined.

(** ** Failures before the first command *)

(** X4: when the target path is taken by a regular file,
    [os.makedirs(..., exist_ok=True)] raises [FileExistsError]: the run
    stops there with nothing printed, nothing written and no command
    started. *)
Theorem target_dir_taken_by_a_file tool source_path target_dir w g :
  is_Some (fs w !! source_path) ->
  target_dir <> "" ->
  fs w !! target_dir = Some (File g) ->
  generate_favicons tool source_path target_dir w
  = (Raised (FileExistsError target_dir), w).
Proof.
  intros Hsrc Hdir Hfile.
  rewrite generate_favicons_found by done. unfold generate_existing.
  apply bind_abort. unfold os_makedirs_exist_ok.
  by rewrite bool_decide_eq_false_2, Hfile by done.
Qed.

Lemma target_dir_taken_by_a_file_witness :
  is_Some (fs world_dir_is_file !! "public/logo.png") /\
  "out/icons" <> "" /\
  fs world_dir_is_file !! "out/icons" = Some (File logo) /\
  generate_favicons (reference_tool true) "public/logo.png" "out/icons"
    world_dir_is_file
  = (Raised (FileExistsError "out/icons"), world_dir_is_file).
Proof.
  assert (Hs : is_Some (fs world_dir_is_file !! "public/logo.png"))
    by (exists (File logo); vm_compute; reflexivity).
  assert (Hd : "out/icons" <> "") by discriminate.
  assert (Hf : fs world_dir_is_file !! "out/icons" = Some (File logo))
    by (vm_compute; reflexivity).
  pose proof (target_dir_taken_by_a_file
                (reference_tool true) "public/logo.png" "out/icons"
                world_dir_is_file logo Hs Hd Hf) as Hrun.
  repeat (split; [assumption|]). exact Hrun.
Defined.

(** X5: where [sips] cannot be started (it is not installed), a run
    whose directory creation at line 10 returned gets as far as the
    first table entry: the target directory is there, the first
    progress line is printed, the one command is attempted, and its
    [FileNotFoundError] leaves the script; nothing else is printed,
    written or started. *)
Theorem missing_sips_stops_at_the_first_entry
    tool source_path target_dir w w0 :
  is_Some (fs w !! source_path) ->
  os_makedirs_exist_ok target_dir w = (Returned tt, w0) ->
  tool (World (fs w0)
              (console w0 ++ ["Generating android-chrome-144x144.png (144x144)..."])
              (calls w0))
       ["sips"; "-z"; "144"; "144"; source_path; "--out";
        os_path_join target_dir "android-chrome-144x144.png"]
  = NotLaunched ->
  generate_favicons tool source_path target_dir w
  = (Raised (FileNotFoundError "sips"),
     World (fs w0)
           (console w ++ ["Generating android-chrome-144x144.png (144x144)..."])
           (calls w ++ [["sips"; "-z"; "144"; "144"; source_path; "--out";
                         os_path_join target_dir "android-chrome-144x144.png"]])) /\
  fs w0 !! target_dir = Some Dir.
Proof.
  intros Hsrc Hmk Htool.
  pose proof (os_makedirs_returned _ _ _ Hmk) as (_ & Hfs0 & Hcon0 & Hcalls0).
  split; [|rewrite Hfs0; apply lookup_insert_eq].
  rewrite generate_favicons_found by done. unfold generate_existing.
  rewrite (bind_run _ _ _ _ _ Hmk). apply bind_abort.
  change targets with (("android-chrome-144x144.png", 144, 144) :: tail targets).
  cbn [for_each]. apply bind_abort.
  unfold resize_target. rewrite (bind_run _ _ _ _ _ (print_run _ _)).
  apply run_raised. left. cbn [fs console calls].
  split; [exact Htool|]. rewrite Hcon0, Hcalls0. done.
Qed.

Lemma missing_sips_stops_at_the_first_entry_witness :
  is_Some (fs world0 !! "public/logo.png") /\
  (os_makedirs_exist_ok "out/icons" world0).1 = Returned tt /\
  (generate_favicons no_tool "public/logo.png" "out/icons" world0).1
  = Raised (FileNotFoundError "sips") /\
  length (calls (generate_favicons no_tool "public/logo.png" "out/icons"
                   world0).2) = 1%nat.
Proof.
  assert (Hs : is_Some (fs world0 !! "public/logo.png"))
    by (exists (File logo); reflexivity).
  assert (Hm : (os_makedirs_exist_ok "out/icons" world0).1 = Returned tt)
    by (vm_compute; reflexivity).
  destruct (missing_sips_stops_at_the_first_entry
              no_tool "public/logo.png" "out/icons" world0 _
              Hs (returned_with_world _ _ Hm) eq_refl)
    as [Hrun _].
  rewrite Hrun. cbn [fst snd calls].
  repeat (split; [assumption|]). split; reflexivity.
Defined.

(** ** What an aborted run leaves behind *)






(** ** Failures of the tile and of the intermediate *)

(** X7: if the table went through and the tile command exits with a
    non-zero status, its [CalledProcessError] leaves the script: the
    commands started are the 30 resizes and the tile command, the
    [favicon.ico] line is not printed and the ICO step does not begin. *)
Theorem failed_tile_resize_aborts_the_run
    tool source_path target_dir w wl rc fs' :
  is_Some (fs w !! source_path) ->
  (os_makedirs_exist_ok target_dir ;;
   for_each targets (resize_target tool source_path target_dir)) w
  = (Returned tt, wl) ->
  tool (World (fs wl) (console wl ++ ["Generating mstile-310x150.png..."])
              (calls wl))
       (tile_cmd source_path target_dir) = Exited rc fs' ->
  rc <> 0 ->
  generate_favicons tool source_path target_dir w
  = (Raised (CalledProcessError rc (tile_cmd source_path target_dir)),
     World fs'
           (console w ++ map progress_line targets
                      ++ ["Generating mstile-310x150.png..."])
           (calls w ++ map (resize_cmd source_path target_dir) targets
                    ++ [tile_cmd source_path target_dir])).
Proof.
  intros Hsrc Hpre Htool Hrc.
  apply bind_returned in Hpre as ([] & w0 & Hmk & Hloop).
  rewrite generate_favicons_found by done. unfold generate_existing.
  rewrite (bind_run _ _ _ _ _ Hmk), (bind_run _ _ _ _ _ Hloop).
  rewrite (bind_run _ _ _ _ _ (print_run _ _)).
  apply bind_abort, run_raised. right. exists rc, fs'. cbn [fs console calls].
  split; [exact Htool|]. split; [exact Hrc|]. split; [reflexivity|].
  apply for_each_returned in Hloop as [Hcalls Hcon].
  apply os_makedirs_returned in Hmk as (_ & _ & Hcon0 & Hcalls0).
  rewrite Hcalls, Hcon, Hcon0, Hcalls0.
  by rewrite <- !app_assoc.
Qed.

Lemma failed_tile_resize_aborts_the_run_witness :
  is_Some (fs world0 !! "public/logo.png") /\
  1 <> 0 /\
  (generate_favicons sips_fails_at_tile "public/logo.png" "out/icons" world0).1
  = Raised (CalledProcessError 1 (tile_cmd "public/logo.png" "out/icons")) /\
  length (calls (generate_favicons sips_fails_at_tile
                   "public/logo.png" "out/icons" world0).2) = 31%nat.
Proof.
  assert (Hs : is_Some (fs world0 !! "public/logo.png"))
    by (exists (File logo); reflexivity).
  assert (Hrc : 1 <> 0) by lia.
  set (pre := (os_makedirs_exist_ok "out/icons" ;;
               for_each targets
                 (resize_target sips_fails_at_tile "public/logo.png" "out/icons"))
                world0).
  assert (Hpre : pre = (Returned tt, pre.2))
    by (apply returned_with_world; vm_compute; reflexivity).
  assert (Hf : forall wl,
             sips_fails_at_tile
               (World (fs wl) (console wl ++ ["Generating mstile-310x150.png..."])
                      (calls wl))
               (tile_cmd "public/logo.png" "out/icons")
             = Exited 1 (fs wl)).
  { intros wl. unfold sips_fails_at_tile, failing_on.
    rewrite bool_decide_eq_true_2; [reflexivity|]. vm_compute. reflexivity. }
  pose proof (failed_tile_resize_aborts_the_run
                sips_fails_at_tile "public/logo.png" "out/icons" world0
                pre.2 1 (fs pre.2) Hs Hpre (Hf pre.2) Hrc) as Hrun.
  rewrite Hrun. cbn [fst snd calls].
  repeat (split; [assumption|]). split; [reflexivity|].
  vm_compute. reflexivity.
Defined.

(** X8: if the intermediate cannot be produced (the 32 x 32 resize exits
    with a non-zero status), its [CalledProcessError] leaves the script
    before the conversion is tried: neither the conversion nor [cp] is
    started, and line 80 does not run. *)
Theorem failed_intermediate_resize_aborts_the_run
    tool source_path target_dir w w2 rc fs' :
  is_Some (fs w !! source_path) ->
  (os_makedirs_exist_ok target_dir ;;
   for_each targets (resize_target tool source_path target_dir) ;;
   print "Generating mstile-310x150.png..." ;;
   subprocess_run_check tool (tile_cmd source_path target_dir)) w
  = (Returned tt, w2) ->
  tool (World (fs w2) (console w2 ++ ["Generating favicon.ico..."]) (calls w2))
       (temp_cmd source_path target_dir) = Exited rc fs' ->
  rc <> 0 ->
  generate_favicons tool source_path target_dir w
  = (Raised (CalledProcessError rc (temp_cmd source_path target_dir)),
     World fs'
           (console w ++ map progress_line targets
                      ++ ["Generating mstile-310x150.png...";
                          "Generating favicon.ico..."])
           (calls w ++ map (resize_cmd source_path target_dir) targets
                    ++ [tile_cmd source_path target_dir;
                        temp_cmd source_path target_dir])).
Proof.
  intros Hsrc Hpre Htool Hrc.
  apply bind_returned in Hpre as ([] & w0 & Hmk & Hpre).
  apply bind_returned in Hpre as ([] & wl & Hloop & Hpre).
  apply bind_returned in Hpre as ([] & wa & Hp1 & Htile).
  rewrite generate_favicons_found by done. unfold generate_existing.
  rewrite (bind_run _ _ _ _ _ Hmk), (bind_run _ _ _ _ _ Hloop).
  rewrite (bind_run _ _ _ _ _ Hp1), (bind_run _ _ _ _ _ Htile).
  rewrite (bind_run _ _ _ _ _ (print_run _ _)).
  apply bind_abort, run_raised. right. exists rc, fs'. cbn [fs console calls].
  split; [exact Htool|]. split; [exact Hrc|]. split; [reflexivity|].
  rewrite print_run in Hp1. injection Hp1 as <-.
  apply run_returned in Htile as (fs2 & _ & ->). cbn [fs console calls].
  apply for_each_returned in Hloop as [Hcalls Hcon].
  apply os_makedirs_returned in Hmk as (_ & _ & Hcon0 & Hcalls0).
  rewrite Hcalls, Hcon, Hcon0, Hcalls0.
  by rewrite <- !app_assoc.
Qed.

Lemma failed_intermediate_resize_aborts_the_run_witness :
  is_Some (fs world0 !! "public/logo.png") /\
  1 <> 0 /\
  (generate_favicons sips_fails_at_temp "public/logo.png" "out/icons" world0).1
  = Raised (CalledProcessError 1 (temp_cmd "public/logo.png" "out/icons")) /\
  length (calls (generate_favicons sips_fails_at_temp
                   "public/logo.png" "out/icons" world0).2) = 32%nat.
Proof.
  assert (Hs : is_Some (fs world0 !! "public/logo.png"))
    by (exists (File logo); reflexivity).
  assert (Hrc : 1 <> 0) by lia.
  set (pre := (os_makedirs_exist_ok "out/icons" ;;
               for_each targets
                 (resize_target sips_fails_at_temp "public/logo.png" "out/icons") ;;
               print "Generating mstile-310x150.png..." ;;
               subprocess_run_check sips_fails_at_temp
                 (tile_cmd "public/logo.png" "out/icons")) world0).
  assert (Hpre : pre = (Returned tt, pre.2))
    by (apply returned_with_world; vm_compute; reflexivity).
  assert (Hf : forall w2,
             sips_fails_at_temp
               (World (fs w2) (console w2 ++ ["Generating favicon.ico..."])
                      (calls w2))
               (temp_cmd "public/logo.png" "out/icons")
             = Exited 1 (fs w2)).
  { intros w2. unfold sips_fails_at_temp, failing_on.
    rewrite bool_decide_eq_true_2; [reflexivity|]. vm_compute. reflexivity. }
  pose proof (failed_intermediate_resize_aborts_the_run
                sips_fails_at_temp "public/logo.png" "out/icons" world0
                pre.2 1 (fs pre.2) Hs Hpre (Hf pre.2) Hrc) as Hrun.
  rewrite Hrun. cbn [fst snd calls].
  repeat (split; [assumption|]). split; [reflexivity|].
  vm_compute. reflexivity.
Defined.

(** ** The exceptions a run can raise *)







(** ** The direct-run mode *)

(** X10: run directly with its source missing, the script reports the
    error and then, [generate_favicons] having returned [None] without
    raising, prints the closing line all the same: the console ends with
    the error followed by "Done! Favicons generated in ...", although no
    directory was created and no command was started. *)
Theorem main_reports_done_on_a_missing_source tool w :
  fs w !! SOURCE = None ->
  main tool w
  = (Returned tt,
     World (fs w)
           (console w ++
            ["Error: Source file " +:+ SOURCE +:+ " not found.";
             "Done! Favicons generated in " +:+ TARGET])
           (calls w)).
Proof.
  intros Hmissing. unfold main.
  rewrite (bind_run _ _ _ _ _ (generate_favicons_missing _ _ _ _ Hmissing)).
  rewrite print_run. cbn [fs console calls]. by rewrite <- app_assoc.
Qed.

Lemma main_reports_done_on_a_missing_source_witness :
  fs empty_world !! SOURCE = None /\
  main (reference_tool true) empty_world
  = (Returned tt,
     World ∅
       ["Error: Source file /Users/hmenon/Documents/Projects/Alethia/public/ARGUS_Logo.png not found.";
        "Done! Favicons generated in /Users/hmenon/Documents/Projects/Alethia/.tmp/new_favicons"]
       []).
Proof.
  assert (Hm : fs empty_world !! SOURCE = None) by reflexivity.
  pose proof (main_reports_done_on_a_missing_source
                (reference_tool true) empty_world Hm) as Hrun.
  split; [exact Hm|]. rewrite Hrun. vm_compute. reflexivity.
Defined.

(** ** Stale files in the target directory *)

(** X11: with tools that work, a run on an existing source file whose
    directory creation at line 10 returns goes through whatever the
    target directory already holds - old outputs, an intermediate left
    by an aborted run: it returns, all 32 outputs are files afterwards
    and the intermediate is gone. *)
Theorem run_succeeds_whatever_the_directory_holds
    tool source_path target_dir w w0 f :
  tool_contract tool ->
  tool_reliable tool ->
  fs w !! source_path = Some (File f) ->
  os_makedirs_exist_ok target_dir w = (Returned tt, w0) ->
  exists w',
    generate_favicons tool source_path target_dir w = (Returned PyNone, w') /\
    (forall p, p ∈ output_paths target_dir -> is_file (fs w') p) /\
    fs w' !! temp_ico_png target_dir = None.
Proof.
  intros contract reliable Hsrc Hmk.
  pose proof (os_makedirs_returned _ _ _ Hmk) as (Hdir & _).
  assert (Hnofile : forall g, fs w !! target_dir <> Some (File g)).
  { intros g Hg. unfold os_makedirs_exist_ok in Hmk.
    by rewrite bool_decide_eq_false_2, Hg in Hmk. }
  destruct (generate_favicons_succeeds tool source_path target_dir
              contract reliable w) as [w' Hrun]; [by exists f|done..|].
  assert (found : is_Some (fs w !! source_path)) by by eexists.
  exists w'. split_and!; [done| |].
  - intros p Hp. exact (finished_outputs _ _ _ contract _ _ _ found Hrun p Hp).
  - exact (finished_temp _ _ _ contract _ _ _ found Hrun).
Qed.

Lemma run_succeeds_whatever_the_directory_holds_witness :
  tool_contract (reference_tool false) /\
  tool_reliable (reference_tool false) /\
  fs world_stale !! "public/logo.png" = Some (File logo) /\
  (os_makedirs_exist_ok "out/icons" world_stale).1 = Returned tt /\
  fs world_stale !! temp_ico_png "out/icons" = Some (File (Image JPEG 7 7)) /\
  exists w',
    generate_favicons (reference_tool false) "public/logo.png" "out/icons"
      world_stale = (Returned PyNone, w') /\
    fs w' !! temp_ico_png "out/icons" = None.
Proof.
  assert (Hc : tool_contract (reference_tool false))
    by apply reference_tool_contract.
  assert (Hrel : tool_reliable (reference_tool false))
    by apply reference_tool_reliable.
  assert (Hs : fs world_stale !! "public/logo.png" = Some (File logo))
    by (vm_compute; reflexivity).
  assert (Hm : (os_makedirs_exist_ok "out/icons" world_stale).1 = Returned tt)
    by (vm_compute; reflexivity).
  assert (Hstale : fs world_stale !! temp_ico_png "out/icons"
                   = Some (File (Image JPEG 7 7)))
    by (vm_compute; reflexivity).
  destruct (run_succeeds_whatever_the_directory_holds
              (reference_tool false) "public/logo.png" "out/icons"
              world_stale _ logo Hc Hrel Hs (returned_with_world _ _ Hm))
    as (w' & Hrun & _ & Hgone).
  repeat (split; [assumption|]).
  exists w'. split; [exact Hrun|exact Hgone].
Defined.
